(** * ILI9488 8080-parallel driver: shallow embedding and properties

    The driver (ili9488.c / ili9488.h) is embedded as a small
    state-and-trace monad.  The state is the file's single global,
    [ili9488_rotation]; the trace is the sequence of bus transactions,
    reset-line edges and [HAL_Delay] calls the driver performs, in
    program order.  C integer parameters are taken as [Z] and converted
    to their declared width on entry, as a C call does. *)

From Stdlib Require Import ZArith List Lia Bool.
Import ListNotations.
Local Open Scope Z_scope.

(* ------------------------------------------------------------------ *)
(** ** C integer types *)

Module CInt.

Definition uint8_t (v : Z) : Z := v mod 2 ^ 8.
Definition uint16_t (v : Z) : Z := v mod 2 ^ 16.
Definition uint32_t (v : Z) : Z := v mod 2 ^ 32.

Definition in_uint8 (v : Z) : Prop := 0 <= v < 2 ^ 8.
Definition in_uint16 (v : Z) : Prop := 0 <= v < 2 ^ 16.
Definition in_uint32 (v : Z) : Prop := 0 <= v < 2 ^ 32.

End CInt.
Import CInt.

(* ------------------------------------------------------------------ *)
(** ** ili9488.h: dimensions, colours, rotation values *)

Definition ILI9488_PORTRAIT_WIDTH : Z := 320.
Definition ILI9488_PORTRAIT_HEIGHT : Z := 480.
Definition ILI9488_LANDSCAPE_WIDTH : Z := 480.
Definition ILI9488_LANDSCAPE_HEIGHT : Z := 320.

Definition ILI9488_WHITE : Z := 0x3FFFFF.

Definition ILI9488_ROTATION_PORTRAIT : Z := 0.
Definition ILI9488_ROTATION_LANDSCAPE : Z := 1.
Definition ILI9488_ROTATION_PORTRAIT_INV : Z := 2.
Definition ILI9488_ROTATION_LANDSCAPE_INV : Z := 3.

(** ** ili9488.c: command opcodes *)

Definition CMD_SLEEP_IN : Z := 0x10.
Definition CMD_SLEEP_OUT : Z := 0x11.
Definition CMD_DISPLAY_OFF : Z := 0x28.
Definition CMD_DISPLAY_ON : Z := 0x29.
Definition CMD_MEMORY_WRITE : Z := 0x2C.
Definition CMD_COLUMN_ADDR : Z := 0x2A.
Definition CMD_PAGE_ADDR : Z := 0x2B.
Definition CMD_MEMORY_ACCESS : Z := 0x36.
Definition CMD_PIXEL_FORMAT : Z := 0x3A.

(* ------------------------------------------------------------------ *)
(** ** Observable behaviour and driver state *)

(** One entry per transaction of the driver with its environment.
    [Command w] and [DataWord w] are one chip-select bracket around one
    write strobe, with DCX low resp. high and [w] the word on DB0..DB17
    at the strobe. *)
Inductive event : Type :=
| Command (word : Z)
| DataWord (word : Z)
| ResetLow
| ResetHigh
| HAL_Delay (ms : Z).

(** The only variable of the driver: [ILI9488_Rotation_t ili9488_rotation].
    [ILI9488_Init] is declared with a [uint8_t] parameter in the header,
    so the stored value ranges over 0..255. *)
Record driver : Type := mkDriver { ili9488_rotation : Z }.

(** Load-time value of the global. *)
Definition power_on : driver := mkDriver ILI9488_ROTATION_PORTRAIT.

(** A driver routine: from a state to a result, the state after, and the
    events emitted. *)
Definition Drv (A : Type) : Type := driver -> A * driver * list event.

Definition ret {A : Type} (a : A) : Drv A := fun s => (a, s, []).

Definition bind {A B : Type} (m : Drv A) (k : A -> Drv B) : Drv B :=
  fun s =>
    let r1 := m s in
    let r2 := k (fst (fst r1)) (snd (fst r1)) in
    (fst r2, snd r1 ++ snd r2).

Definition emit (e : event) : Drv unit := fun s => (tt, s, [e]).
Definition read_rotation : Drv Z := fun s => (ili9488_rotation s, s, []).
Definition write_rotation (r : Z) : Drv unit := fun _ => (tt, mkDriver r, []).

Declare Scope drv_scope.
Delimit Scope drv_scope with drv.
Notation "x <- m ;; k" := (bind m (fun x => k))
  (at level 61, m at next level, right associativity) : drv_scope.
Notation "m ;; k" := (bind m (fun _ => k))
  (at level 61, right associativity) : drv_scope.
Local Open Scope drv_scope.

Definition state_after {A : Type} (m : Drv A) (s : driver) : driver := snd (fst (m s)).
Definition trace_of {A : Type} (m : Drv A) (s : driver) : list event := snd (m s).

(** [for (uint32_t i = 0; i < bound; i++) body], for a body that does not
    use [i]: the body runs [bound] times. *)
Fixpoint iterate (n : nat) (body : Drv unit) : Drv unit :=
  match n with
  | O => ret tt
  | S k => body ;; iterate k body
  end.

Definition for_uint32 (bound : Z) (body : Drv unit) : Drv unit :=
  iterate (Z.to_nat (uint32_t bound)) body.

(* ------------------------------------------------------------------ *)
(** ** Bus transport: [ILI9488_Write18] *)

(** Level of data line DBi once the clear-all / set-if-bit sequence is
    done: [if (data & (1 << i)) DBi = 1]. *)
Definition DB_level (data : Z) (i : Z) : bool :=
  negb (Z.land data (Z.shiftl 1 i) =? 0).

Definition DB_lines : list Z :=
  [0; 1; 2; 3; 4; 5; 6; 7; 8; 9; 10; 11; 12; 13; 14; 15; 16; 17].

(** Word read by the controller from the line levels, DB0 first. *)
Fixpoint latch (levels : list bool) : Z :=
  match levels with
  | [] => 0
  | b :: rest => Z.b2z b + 2 * latch rest
  end.

(** The word on the bus at the WR strobe. *)
Definition ILI9488_Write18 (data : Z) : Z :=
  latch (map (DB_level (uint32_t data)) DB_lines).

(** ** Transaction layer *)

Definition ILI9488_WriteCommand (cmd : Z) : Drv unit :=
  emit (Command (ILI9488_Write18 (uint8_t cmd))).

Definition ILI9488_WriteData (data : Z) : Drv unit :=
  emit (DataWord (ILI9488_Write18 (uint32_t data))).

(* ------------------------------------------------------------------ *)
(** ** Addressing *)

(** The tests [ili9488_rotation == ..._PORTRAIT || ... == ..._PORTRAIT_INV]
    and [... == ..._LANDSCAPE || ... == ..._LANDSCAPE_INV] that every
    routine below starts with. *)
Definition is_portrait (rot : Z) : bool :=
  (rot =? ILI9488_ROTATION_PORTRAIT) || (rot =? ILI9488_ROTATION_PORTRAIT_INV).

Definition is_landscape (rot : Z) : bool :=
  (rot =? ILI9488_ROTATION_LANDSCAPE) || (rot =? ILI9488_ROTATION_LANDSCAPE_INV).

Definition ILI9488_SetAddressWindow (x0 y0 x1 y1 : Z) : Drv unit :=
  let x0 := uint16_t x0 in
  let y0 := uint16_t y0 in
  let x1 := uint16_t x1 in
  let y1 := uint16_t y1 in
  rot <- read_rotation ;;
  if is_portrait rot then
    ILI9488_WriteCommand CMD_COLUMN_ADDR ;;
    ILI9488_WriteData (Z.shiftr x0 8) ;; ILI9488_WriteData (Z.land x0 0xFF) ;;
    ILI9488_WriteData (Z.shiftr x1 8) ;; ILI9488_WriteData (Z.land x1 0xFF) ;;
    ILI9488_WriteCommand CMD_PAGE_ADDR ;;
    ILI9488_WriteData (Z.shiftr y0 8) ;; ILI9488_WriteData (Z.land y0 0xFF) ;;
    ILI9488_WriteData (Z.shiftr y1 8) ;; ILI9488_WriteData (Z.land y1 0xFF) ;;
    ILI9488_WriteCommand CMD_MEMORY_WRITE
  else if is_landscape rot then
    ILI9488_WriteCommand CMD_COLUMN_ADDR ;;
    ILI9488_WriteData (Z.shiftr y0 8) ;; ILI9488_WriteData (Z.land y0 0xFF) ;;
    ILI9488_WriteData (Z.shiftr y1 8) ;; ILI9488_WriteData (Z.land y1 0xFF) ;;
    ILI9488_WriteCommand CMD_PAGE_ADDR ;;
    ILI9488_WriteData (Z.shiftr x0 8) ;; ILI9488_WriteData (Z.land x0 0xFF) ;;
    ILI9488_WriteData (Z.shiftr x1 8) ;; ILI9488_WriteData (Z.land x1 0xFF) ;;
    ILI9488_WriteCommand CMD_MEMORY_WRITE
  else ret tt.

(** The two branches above are one sequence of eleven transactions,
    column range then page range then memory write, taken with the
    arguments in two orders. *)
Definition window_sequence (c0 c1 p0 p1 : Z) : Drv unit :=
  ILI9488_WriteCommand CMD_COLUMN_ADDR ;;
  ILI9488_WriteData (Z.shiftr c0 8) ;; ILI9488_WriteData (Z.land c0 0xFF) ;;
  ILI9488_WriteData (Z.shiftr c1 8) ;; ILI9488_WriteData (Z.land c1 0xFF) ;;
  ILI9488_WriteCommand CMD_PAGE_ADDR ;;
  ILI9488_WriteData (Z.shiftr p0 8) ;; ILI9488_WriteData (Z.land p0 0xFF) ;;
  ILI9488_WriteData (Z.shiftr p1 8) ;; ILI9488_WriteData (Z.land p1 0xFF) ;;
  ILI9488_WriteCommand CMD_MEMORY_WRITE.

(* ------------------------------------------------------------------ *)
(** ** Drawing primitives *)

Definition ILI9488_DrawPixel (x y color : Z) : Drv unit :=
  let x := uint16_t x in
  let y := uint16_t y in
  let color := uint32_t color in
  rot <- read_rotation ;;
  if is_portrait rot then
    ILI9488_SetAddressWindow x y x y ;;
    ILI9488_WriteData (Z.land color 0x3FFFF)
  else if is_landscape rot then
    ILI9488_SetAddressWindow y x y x ;;
    ILI9488_WriteData (Z.land color 0x3FFFF)
  else ret tt.

Definition ILI9488_DrawLine (x0 y0 x1 y1 color : Z) : Drv unit :=
  let x0 := uint16_t x0 in
  let y0 := uint16_t y0 in
  let x1 := uint16_t x1 in
  let y1 := uint16_t y1 in
  let color := uint32_t color in
  rot <- read_rotation ;;
  if is_portrait rot then
    ILI9488_SetAddressWindow x0 y0 x1 y1 ;;
    for_uint32 (uint32_t ILI9488_PORTRAIT_WIDTH * ILI9488_PORTRAIT_HEIGHT)
      (ILI9488_WriteData (Z.land color 0x3FFFF))
  else if is_landscape rot then
    ILI9488_SetAddressWindow y0 x0 y1 x1 ;;
    for_uint32 (uint32_t ILI9488_LANDSCAPE_WIDTH * ILI9488_LANDSCAPE_HEIGHT)
      (ILI9488_WriteData (Z.land color 0x3FFFF))
  else ret tt.

Definition ILI9488_DrawRect (x y w h color : Z) : Drv unit :=
  let x := uint16_t x in
  let y := uint16_t y in
  let w := uint16_t w in
  let h := uint16_t h in
  let color := uint32_t color in
  rot <- read_rotation ;;
  if is_portrait rot then
    ILI9488_SetAddressWindow x y (x + w - 1) (y + h - 1) ;;
    for_uint32 (uint32_t w * h) (ILI9488_WriteData (Z.land color 0x3FFFF))
  else if is_landscape rot then
    ILI9488_SetAddressWindow y x (y + h - 1) (x + w - 1) ;;
    for_uint32 (uint32_t h * w) (ILI9488_WriteData (Z.land color 0x3FFFF))
  else ret tt.

Definition ILI9488_FillRect (x y w h color : Z) : Drv unit :=
  let x := uint16_t x in
  let y := uint16_t y in
  let w := uint16_t w in
  let h := uint16_t h in
  let color := uint32_t color in
  rot <- read_rotation ;;
  if is_portrait rot then
    ILI9488_SetAddressWindow x y (x + w - 1) (y + h - 1) ;;
    for_uint32 (uint32_t w * h) (ILI9488_WriteData (Z.land color 0x3FFFF))
  else if is_landscape rot then
    ILI9488_SetAddressWindow y x (y + h - 1) (x + w - 1) ;;
    for_uint32 (uint32_t h * w) (ILI9488_WriteData (Z.land color 0x3FFFF))
  else ret tt.

Definition ILI9488_DrawCircle (x0 y0 radius color : Z) : Drv unit :=
  let x0 := uint16_t x0 in
  let y0 := uint16_t y0 in
  let radius := uint16_t radius in
  let color := uint32_t color in
  rot <- read_rotation ;;
  if is_portrait rot then
    ILI9488_SetAddressWindow x0 y0 (x0 + radius) (y0 + radius) ;;
    for_uint32 (uint32_t ILI9488_PORTRAIT_WIDTH * ILI9488_PORTRAIT_HEIGHT)
      (ILI9488_WriteData (Z.land color 0x3FFFF))
  else if is_landscape rot then
    ILI9488_SetAddressWindow y0 x0 (y0 + radius) (x0 + radius) ;;
    for_uint32 (uint32_t ILI9488_LANDSCAPE_WIDTH * ILI9488_LANDSCAPE_HEIGHT)
      (ILI9488_WriteData (Z.land color 0x3FFFF))
  else ret tt.

Definition ILI9488_FillCircle (x0 y0 radius color : Z) : Drv unit :=
  let x0 := uint16_t x0 in
  let y0 := uint16_t y0 in
  let radius := uint16_t radius in
  let color := uint32_t color in
  rot <- read_rotation ;;
  if is_portrait rot then
    ILI9488_SetAddressWindow x0 y0 (x0 + radius) (y0 + radius) ;;
    for_uint32 (uint32_t ILI9488_PORTRAIT_WIDTH * ILI9488_PORTRAIT_HEIGHT)
      (ILI9488_WriteData (Z.land color 0x3FFFF))
  else if is_landscape rot then
    ILI9488_SetAddressWindow y0 x0 (y0 + radius) (x0 + radius) ;;
    for_uint32 (uint32_t ILI9488_LANDSCAPE_WIDTH * ILI9488_LANDSCAPE_HEIGHT)
      (ILI9488_WriteData (Z.land color 0x3FFFF))
  else ret tt.

Definition ILI9488_FillBackground (color : Z) : Drv unit :=
  let color := uint32_t color in
  rot <- read_rotation ;;
  if is_portrait rot then
    ILI9488_SetAddressWindow 0 0 (ILI9488_PORTRAIT_WIDTH - 1) (ILI9488_PORTRAIT_HEIGHT - 1) ;;
    for_uint32 (uint32_t ILI9488_PORTRAIT_WIDTH * ILI9488_PORTRAIT_HEIGHT)
      (ILI9488_WriteData (Z.land color 0x3FFFF))
  else if is_landscape rot then
    ILI9488_SetAddressWindow 0 0 (ILI9488_LANDSCAPE_WIDTH - 1) (ILI9488_LANDSCAPE_HEIGHT - 1) ;;
    for_uint32 (uint32_t ILI9488_LANDSCAPE_WIDTH * ILI9488_LANDSCAPE_HEIGHT)
      (ILI9488_WriteData (Z.land color 0x3FFFF))
  else ret tt.

(* ------------------------------------------------------------------ *)
(** ** Rotation, initialisation, power *)

(** [static const uint8_t ili9488_rotations[4]] *)
Definition ili9488_rotations : list Z := [0x48; 0x28; 0x88; 0xE8].

(** The clamp assigns to the function's own copy of [rotation]; the
    function does not touch [ili9488_rotation]. *)
Definition ILI9488_SetRotation (rotation : Z) : Drv unit :=
  let rotation := uint8_t rotation in
  let rotation :=
    if rotation >? ILI9488_ROTATION_LANDSCAPE_INV
    then ILI9488_ROTATION_PORTRAIT else rotation in
  ILI9488_WriteCommand CMD_MEMORY_ACCESS ;;
  ILI9488_WriteData (nth (Z.to_nat rotation) ili9488_rotations 0).

Definition ILI9488_Init (rotation : Z) : Drv unit :=
  let rotation := uint8_t rotation in
  emit ResetLow ;;
  emit (HAL_Delay 20) ;;
  emit ResetHigh ;;
  emit (HAL_Delay 120) ;;
  ILI9488_WriteCommand CMD_SLEEP_OUT ;;
  emit (HAL_Delay 120) ;;
  ILI9488_WriteCommand CMD_PIXEL_FORMAT ;;
  ILI9488_WriteData 0x66 ;;
  ILI9488_SetRotation rotation ;;
  write_rotation rotation ;;
  ILI9488_WriteCommand CMD_DISPLAY_ON ;;
  emit (HAL_Delay 20).

Definition ILI9488_DisplayOff : Drv unit :=
  ILI9488_WriteCommand CMD_DISPLAY_OFF ;;
  emit (HAL_Delay 20).

Definition ILI9488_DisplayOn : Drv unit :=
  ILI9488_WriteCommand CMD_DISPLAY_ON ;;
  emit (HAL_Delay 20).

Definition ILI9488_Sleep : Drv unit :=
  ILI9488_DisplayOff ;;
  ILI9488_WriteCommand CMD_SLEEP_IN ;;
  emit (HAL_Delay 120).

Definition ILI9488_WakeUp : Drv unit :=
  ILI9488_DisplayOn ;;
  ILI9488_WriteCommand CMD_SLEEP_OUT ;;
  emit (HAL_Delay 20).

(* ------------------------------------------------------------------ *)
(** ** Vocabulary of the properties *)

(** A routine is quiet when it hands back the state it was given. *)
Definition quiet (m : Drv unit) : Prop := forall s, fst (m s) = (tt, s).

(** The four values of [ILI9488_Rotation_t]. *)
Definition enumerated (r : Z) : Prop :=
  r = ILI9488_ROTATION_PORTRAIT \/ r = ILI9488_ROTATION_LANDSCAPE \/
  r = ILI9488_ROTATION_PORTRAIT_INV \/ r = ILI9488_ROTATION_LANDSCAPE_INV.

(** Width and height of the screen as the drawing routines take them
    for a stored rotation. *)
Definition panel_width (r : Z) : Z :=
  if is_portrait r then ILI9488_PORTRAIT_WIDTH else ILI9488_LANDSCAPE_WIDTH.

Definition panel_height (r : Z) : Z :=
  if is_portrait r then ILI9488_PORTRAIT_HEIGHT else ILI9488_LANDSCAPE_HEIGHT.

(** The eleven transactions of a window with column range [c0..c1] and
    page range [p0..p1], high byte first. *)
Definition window_events (c0 c1 p0 p1 : Z) : list event :=
  [Command 0x2A;
   DataWord (c0 / 256); DataWord (c0 mod 256);
   DataWord (c1 / 256); DataWord (c1 mod 256);
   Command 0x2B;
   DataWord (p0 / 256); DataWord (p0 mod 256);
   DataWord (p1 / 256); DataWord (p1 mod 256);
   Command 0x2C].

(** Reading a window back from the head of a trace:
    (first column, last column, first page, last page). *)
Definition window_of (t : list event) : option (Z * Z * Z * Z) :=
  match t with
  | Command _ :: DataWord a :: DataWord b :: DataWord c :: DataWord d ::
    Command _ :: DataWord e :: DataWord f :: DataWord g :: DataWord h ::
    Command _ :: _ =>
      Some (256 * a + b, 256 * c + d, 256 * e + f, 256 * g + h)
  | _ => None
  end.

(** Number of pixels a window covers. *)
Definition window_area (win : Z * Z * Z * Z) : Z :=
  let '(c0, c1, p0, p1) := win in (c1 - c0 + 1) * (p1 - p0 + 1).

(** State reached by initialising in portrait and then calling the
    rotation routine for landscape. *)
Definition init_then_rotate : driver :=
  state_after (ILI9488_Init ILI9488_ROTATION_PORTRAIT ;;
               ILI9488_SetRotation ILI9488_ROTATION_LANDSCAPE) power_on.

(* ------------------------------------------------------------------ *)
(** ** The transport at the level of the output lines *)

(** Modelled from the spec: the pin and port macros of main.h
    ([DB0_Pin] .. [DB17_Pin], [ILI9488_WR_Pin], [ILI9488_CS_Pin],
    [ILI9488_DCX_Pin], [ILI9488_RESET_Pin] and their ports) are not in
    the repository; they are taken as twenty-two discrete output lines,
    each driven by its own bit of a set/reset register. *)
Inductive line : Type :=
| DB (i : nat)
| WR
| CS
| DCX
| RESET.

Definition line_eqb (a b : line) : bool :=
  match a, b with
  | DB i, DB j => Nat.eqb i j
  | WR, WR | CS, CS | DCX, DCX | RESET, RESET => true
  | _, _ => false
  end.

(** One statement of the transport: [PORT->BSRR = PIN] drives the line
    high, [PORT->BSRR = (uint32_t)PIN << 16] drives it low, [__NOP()]
    leaves the lines as they are. *)
Inductive pin_op : Type :=
| BSRR_set (l : line)
| BSRR_reset (l : line)
| NOP.

Definition levels : Type := line -> bool.

Definition drive (lv : levels) (op : pin_op) : levels :=
  match op with
  | BSRR_set l => fun l' => if line_eqb l l' then true else lv l'
  | BSRR_reset l => fun l' => if line_eqb l l' then false else lv l'
  | NOP => lv
  end.

Definition drive_all (ops : list pin_op) (lv : levels) : levels :=
  fold_left drive ops lv.

(** The eighteen data lines, in the order the source names them. *)
Definition DB_indices : list nat := seq 0 18.

(** [ILI9488_Write18], statement by statement: eighteen clears, the
    eighteen conditional sets, then the write strobe. *)
Definition Write18_ops (data : Z) : list pin_op :=
  let data := uint32_t data in
  map (fun i => BSRR_reset (DB i)) DB_indices
  ++ flat_map (fun i => if DB_level data (Z.of_nat i)
                        then [BSRR_set (DB i)] else []) DB_indices
  ++ [BSRR_reset WR; NOP; NOP; BSRR_set WR].

Definition WriteCommand_ops (cmd : Z) : list pin_op :=
  [BSRR_reset CS; BSRR_reset DCX] ++ Write18_ops (uint8_t cmd) ++ [BSRR_set CS].

Definition WriteData_ops (data : Z) : list pin_op :=
  [BSRR_reset CS; BSRR_set DCX] ++ Write18_ops (uint32_t data) ++ [BSRR_set CS].

(** The word the data lines carry, DB0 first. *)
Definition word_on_bus (lv : levels) : Z :=
  latch (map (fun i => lv (DB i)) DB_indices).

(** The controller's side of the 8080 bus: on a rising edge of WR with
    chip select low it takes the word on the data lines, as a command
    when DCX is low and as data when DCX is high. *)
Fixpoint sample (lv : levels) (ops : list pin_op) : list event :=
  match ops with
  | [] => []
  | op :: rest =>
      let lv' := drive lv op in
      (if negb (lv WR) && lv' WR && negb (lv' CS)
       then [if lv' DCX then DataWord (word_on_bus lv')
             else Command (word_on_bus lv')]
       else [])
      ++ sample lv' rest
  end.

(** The events a pixel stream is made of: the three addressing
    commands and data words of at most 18 bits. *)
Definition stream_event (e : event) : Prop :=
  match e with
  | Command w => w = CMD_COLUMN_ADDR \/ w = CMD_PAGE_ADDR \/ w = CMD_MEMORY_WRITE
  | DataWord w => 0 <= w < 2 ^ 18
  | _ => False
  end.

(* ------------------------------------------------------------------ *)
(** ** The bus word *)

Section Transport.

Lemma land_single_bit (d i : Z) :
  0 <= i ->
  Z.land d (Z.shiftl 1 i) = if Z.testbit d i then 2 ^ i else 0.
Proof.
  intros Hi. rewrite Z.shiftl_1_l.
  apply Z.bits_inj'. intros n Hn.
  rewrite Z.land_spec, Z.pow2_bits_eqb by assumption.
  destruct (Z.eqb_spec i n) as [->|Hne].
  - destruct (Z.testbit d n) eqn:E.
    + now rewrite Z.pow2_bits_eqb, Z.eqb_refl.
    + now rewrite Z.bits_0.
  - rewrite andb_false_r.
    destruct (Z.testbit d i).
    + rewrite Z.pow2_bits_eqb by assumption.
      symmetry. now apply Z.eqb_neq.
    + now rewrite Z.bits_0.
Qed.

Lemma DB_level_testbit (d i : Z) : 0 <= i -> DB_level d i = Z.testbit d i.
Proof.
  intros Hi. unfold DB_level. rewrite land_single_bit by assumption.
  destruct (Z.testbit d i); [|reflexivity].
  assert (0 < 2 ^ i) by (apply Z.pow_pos_nonneg; lia).
  destruct (Z.eqb_spec (2 ^ i) 0); [lia | reflexivity].
Qed.

(** Reading [n] consecutive lines from line [k] on gives the [n]-bit
    field of the datum that starts at bit [k]. *)
Lemma latch_field (d : Z) (n k : nat) :
  latch (map (DB_level d) (map Z.of_nat (seq k n)))
  = (d / 2 ^ Z.of_nat k) mod 2 ^ Z.of_nat n.
Proof.
  revert k. induction n as [|n IH]; intros k.
  - cbn [seq map latch]. now rewrite Z.mod_1_r.
  - cbn [seq map latch]. rewrite IH.
    rewrite DB_level_testbit, Z.testbit_spec' by lia.
    assert (Hk : 0 < 2 ^ Z.of_nat k) by (apply Z.pow_pos_nonneg; lia).
    assert (Hn : 0 < 2 ^ Z.of_nat n) by (apply Z.pow_pos_nonneg; lia).
    replace (Z.of_nat (S k)) with (Z.succ (Z.of_nat k)) by lia.
    replace (Z.of_nat (S n)) with (Z.succ (Z.of_nat n)) by lia.
    rewrite !Z.pow_succ_r by lia.
    rewrite (Z.mul_comm 2 (2 ^ Z.of_nat k)), <- Z.div_div by lia.
    symmetry. apply Z.rem_mul_r; lia.
Qed.

Lemma Write18_low_bits (data : Z) :
  ILI9488_Write18 data = Z.land data 0x3FFFF.
Proof.
  unfold ILI9488_Write18.
  change DB_lines with (map Z.of_nat (seq 0 18)).
  rewrite latch_field.
  change (2 ^ Z.of_nat 0) with 1. rewrite Z.div_1_r.
  change (Z.of_nat 18) with 18. change 0x3FFFF with (Z.ones 18).
  rewrite Z.land_ones by lia.
  unfold uint32_t.
  change (2 ^ 32) with (2 ^ 18 * 2 ^ 14).
  rewrite Z.rem_mul_r by lia.
  rewrite (Z.mul_comm (2 ^ 18)), Z.mod_add by lia.
  apply Z.mod_mod. lia.
Qed.

Lemma mask18_range (c : Z) : 0 <= Z.land c 0x3FFFF < 2 ^ 18.
Proof.
  change 0x3FFFF with (Z.ones 18). rewrite Z.land_ones by lia.
  apply Z.mod_pos_bound. lia.
Qed.

Lemma mask18_uint32 (c : Z) : Z.land (uint32_t c) 0x3FFFF = Z.land c 0x3FFFF.
Proof. rewrite <- !Write18_low_bits. unfold ILI9488_Write18, uint32_t.
       now rewrite Z.mod_mod by lia. Qed.

Lemma mask18_idem (c : Z) : Z.land (Z.land c 0x3FFFF) 0x3FFFF = Z.land c 0x3FFFF.
Proof. now rewrite <- Z.land_assoc, Z.land_diag. Qed.

(** A colour word goes to the bus as the low 18 bits of the argument. *)
Lemma WriteData_colour (color : Z) (s : driver) :
  ILI9488_WriteData (Z.land (uint32_t color) 0x3FFFF) s
  = (tt, s, [DataWord (Z.land color 0x3FFFF)]).
Proof.
  unfold ILI9488_WriteData, emit.
  rewrite Write18_low_bits, mask18_uint32, mask18_uint32, mask18_idem.
  reflexivity.
Qed.

End Transport.

(* ------------------------------------------------------------------ *)
(** ** Running routines *)

Section Runs.

Lemma quiet_ret : quiet (ret tt).
Proof. intros s. reflexivity. Qed.

Lemma quiet_emit (e : event) : quiet (emit e).
Proof. intros s. reflexivity. Qed.

Lemma quiet_bind (m : Drv unit) (k : unit -> Drv unit) :
  quiet m -> (forall u, quiet (k u)) -> quiet (bind m k).
Proof.
  intros Hm Hk s. unfold bind. cbn [fst snd].
  rewrite (Hm s). cbn [fst snd]. apply Hk.
Qed.

Lemma quiet_read (k : Z -> Drv unit) :
  (forall r, quiet (k r)) -> quiet (bind read_rotation k).
Proof. intros Hk s. unfold bind, read_rotation. cbn [fst snd]. apply Hk. Qed.

Lemma quiet_if (b : bool) (m1 m2 : Drv unit) :
  quiet m1 -> quiet m2 -> quiet (if b then m1 else m2).
Proof. now destruct b. Qed.

Lemma quiet_iterate (n : nat) (body : Drv unit) :
  quiet body -> quiet (iterate n body).
Proof.
  intros Hb. induction n as [|n IH]; cbn [iterate].
  - apply quiet_ret.
  - apply quiet_bind; auto.
Qed.

Lemma quiet_run (m : Drv unit) (s : driver) :
  quiet m -> m s = (tt, s, trace_of m s).
Proof.
  intros Hm. unfold trace_of. specialize (Hm s).
  destruct (m s) as [p t]. cbn [fst snd] in *. now subst p.
Qed.

(** Sequencing after a quiet routine. *)
Lemma seq_quiet (m k : Drv unit) (s : driver) :
  quiet m ->
  (m ;; k) s = (fst (k s), trace_of m s ++ trace_of k s).
Proof.
  intros Hm. unfold bind, trace_of. now rewrite (Hm s).
Qed.

(** The test on the stored rotation that opens every drawing routine. *)
Lemma dispatch (mp ml : Drv unit) (s : driver) :
  (rot <- read_rotation ;;
   if is_portrait rot then mp else if is_landscape rot then ml else ret tt) s
  = if is_portrait (ili9488_rotation s) then mp s
    else if is_landscape (ili9488_rotation s) then ml s
    else (tt, s, []).
Proof.
  unfold bind, read_rotation. cbn [fst snd app].
  destruct (is_portrait _); [now destruct (mp s)|].
  destruct (is_landscape _); [now destruct (ml s)|reflexivity].
Qed.

Lemma iterate_WriteData (n : nat) (color : Z) (s : driver) :
  iterate n (ILI9488_WriteData (Z.land (uint32_t color) 0x3FFFF)) s
  = (tt, s, repeat (DataWord (Z.land color 0x3FFFF)) n).
Proof.
  induction n as [|n IH]; cbn [iterate repeat].
  - reflexivity.
  - unfold bind. rewrite WriteData_colour. cbn [fst snd].
    rewrite IH. reflexivity.
Qed.

End Runs.

Create HintDb quiet.
#[local] Hint Resolve quiet_ret quiet_emit quiet_if quiet_iterate : quiet.
#[local] Hint Extern 2 (quiet (bind read_rotation _)) =>
  apply quiet_read; intro : quiet.
#[local] Hint Extern 3 (quiet (bind _ _)) => apply quiet_bind; [|intro] : quiet.
#[local] Hint Unfold ILI9488_WriteCommand ILI9488_WriteData window_sequence
  for_uint32 : quiet.

Section Quiet.

Lemma quiet_WriteData (d : Z) : quiet (ILI9488_WriteData d).
Proof. apply quiet_emit. Qed.

Lemma quiet_WriteCommand (c : Z) : quiet (ILI9488_WriteCommand c).
Proof. apply quiet_emit. Qed.

Lemma quiet_window_sequence (c0 c1 p0 p1 : Z) : quiet (window_sequence c0 c1 p0 p1).
Proof. unfold window_sequence. auto 30 using quiet_WriteData, quiet_WriteCommand with quiet. Qed.

Lemma SetAddressWindow_branches (x0 y0 x1 y1 : Z) :
  ILI9488_SetAddressWindow x0 y0 x1 y1
  = (rot <- read_rotation ;;
     if is_portrait rot
     then window_sequence (uint16_t x0) (uint16_t x1) (uint16_t y0) (uint16_t y1)
     else if is_landscape rot
     then window_sequence (uint16_t y0) (uint16_t y1) (uint16_t x0) (uint16_t x1)
     else ret tt).
Proof. reflexivity. Qed.

Lemma quiet_SetAddressWindow (x0 y0 x1 y1 : Z) :
  quiet (ILI9488_SetAddressWindow x0 y0 x1 y1).
Proof.
  rewrite SetAddressWindow_branches.
  auto 10 using quiet_window_sequence with quiet.
Qed.

Lemma quiet_for_uint32 (n d : Z) : quiet (for_uint32 n (ILI9488_WriteData d)).
Proof. unfold for_uint32. auto using quiet_WriteData with quiet. Qed.

End Quiet.

#[local] Hint Resolve quiet_WriteData quiet_WriteCommand quiet_window_sequence
  quiet_SetAddressWindow quiet_for_uint32 : quiet.

Section Shapes.

(** The body common to the area routines: one window, then a run of
    identical colour words. *)
Lemma window_then_run (a b c d n color : Z) (s : driver) :
  (ILI9488_SetAddressWindow a b c d ;;
   for_uint32 n (ILI9488_WriteData (Z.land (uint32_t color) 0x3FFFF))) s
  = (tt, s,
     trace_of (ILI9488_SetAddressWindow a b c d) s
     ++ repeat (DataWord (Z.land color 0x3FFFF)) (Z.to_nat (uint32_t n))).
Proof.
  rewrite seq_quiet by auto with quiet.
  unfold for_uint32, trace_of at 2. now rewrite iterate_WriteData.
Qed.

Lemma window_then_word (a b c d color : Z) (s : driver) :
  (ILI9488_SetAddressWindow a b c d ;;
   ILI9488_WriteData (Z.land (uint32_t color) 0x3FFFF)) s
  = (tt, s,
     trace_of (ILI9488_SetAddressWindow a b c d) s
     ++ [DataWord (Z.land color 0x3FFFF)]).
Proof.
  rewrite seq_quiet by auto with quiet.
  unfold trace_of at 2. now rewrite WriteData_colour.
Qed.

Lemma uint16_small (v : Z) : in_uint16 v -> uint16_t v = v.
Proof. intros H. apply Z.mod_small. exact H. Qed.

Lemma uint8_small (v : Z) : in_uint8 v -> uint8_t v = v.
Proof. intros H. apply Z.mod_small. exact H. Qed.

Lemma uint32_small (v : Z) : in_uint32 v -> uint32_t v = v.
Proof. intros H. apply Z.mod_small. exact H. Qed.

Lemma area_count (w h : Z) :
  in_uint16 w -> in_uint16 h -> uint32_t (uint32_t w * h) = w * h.
Proof.
  unfold in_uint16. intros Hw Hh.
  rewrite (uint32_small w) by (unfold in_uint32; lia).
  apply uint32_small. unfold in_uint32. nia.
Qed.

End Shapes.

(* ------------------------------------------------------------------ *)
(** ** Orientation families and panel extent: lemmas *)

Section Families.

Lemma enumerated_family (r : Z) :
  enumerated r <-> is_portrait r = true \/ is_landscape r = true.
Proof.
  unfold enumerated, is_portrait, is_landscape,
    ILI9488_ROTATION_PORTRAIT, ILI9488_ROTATION_LANDSCAPE,
    ILI9488_ROTATION_PORTRAIT_INV, ILI9488_ROTATION_LANDSCAPE_INV.
  rewrite !orb_true_iff, !Z.eqb_eq. tauto.
Qed.

Lemma landscape_not_portrait (r : Z) :
  is_landscape r = true -> is_portrait r = false.
Proof.
  unfold is_portrait, is_landscape,
    ILI9488_ROTATION_PORTRAIT, ILI9488_ROTATION_LANDSCAPE,
    ILI9488_ROTATION_PORTRAIT_INV, ILI9488_ROTATION_LANDSCAPE_INV.
  rewrite orb_true_iff, orb_false_iff, !Z.eqb_eq, !Z.eqb_neq. lia.
Qed.

Lemma outside_family (r : Z) :
  ~ enumerated r -> is_portrait r = false /\ is_landscape r = false.
Proof.
  rewrite enumerated_family. intros H.
  destruct (is_portrait r), (is_landscape r); tauto.
Qed.

Lemma panel_pixels (r : Z) : panel_width r * panel_height r = 153600.
Proof. unfold panel_width, panel_height. now destruct (is_portrait r). Qed.

Lemma byte_word (v : Z) : 0 <= v < 2 ^ 18 -> ILI9488_Write18 (uint32_t v) = v.
Proof.
  intros H. rewrite Write18_low_bits, mask18_uint32.
  change 0x3FFFF with (Z.ones 18). rewrite Z.land_ones by lia.
  now apply Z.mod_small.
Qed.

Lemma WriteData_high (v : Z) (s : driver) :
  in_uint16 v ->
  ILI9488_WriteData (Z.shiftr v 8) s = (tt, s, [DataWord (v / 256)]).
Proof.
  unfold in_uint16. intros H. unfold ILI9488_WriteData, emit.
  rewrite Z.shiftr_div_pow2 by lia. change (2 ^ 8) with 256.
  rewrite byte_word; [reflexivity|].
  split; [apply Z.div_pos; lia|].
  apply Z.div_lt_upper_bound; lia.
Qed.

Lemma WriteData_low (v : Z) (s : driver) :
  ILI9488_WriteData (Z.land v 0xFF) s = (tt, s, [DataWord (v mod 256)]).
Proof.
  unfold ILI9488_WriteData, emit.
  change 0xFF with (Z.ones 8). rewrite Z.land_ones by lia.
  change (2 ^ 8) with 256.
  rewrite byte_word; [reflexivity|].
  pose proof (Z.mod_pos_bound v 256). lia.
Qed.

Lemma window_sequence_run (c0 c1 p0 p1 : Z) (s : driver) :
  in_uint16 c0 -> in_uint16 c1 -> in_uint16 p0 -> in_uint16 p1 ->
  window_sequence c0 c1 p0 p1 s = (tt, s, window_events c0 c1 p0 p1).
Proof.
  intros H0 H1 H2 H3. unfold window_sequence, bind.
  rewrite !WriteData_high, !WriteData_low by assumption.
  reflexivity.
Qed.

Lemma uint16_range (v : Z) : in_uint16 (uint16_t v).
Proof. apply Z.mod_pos_bound. lia. Qed.

(** What reaches the bus for a window call, by family: the portrait
    family sends x as columns and y as pages, the landscape family
    sends y as columns and x as pages. *)
Lemma SetAddressWindow_portrait (x0 y0 x1 y1 : Z) (s : driver) :
  is_portrait (ili9488_rotation s) = true ->
  trace_of (ILI9488_SetAddressWindow x0 y0 x1 y1) s
  = window_events (uint16_t x0) (uint16_t x1) (uint16_t y0) (uint16_t y1).
Proof.
  intros H. unfold trace_of. rewrite SetAddressWindow_branches.
  rewrite dispatch, H.
  now rewrite window_sequence_run by apply uint16_range.
Qed.

Lemma SetAddressWindow_landscape (x0 y0 x1 y1 : Z) (s : driver) :
  is_landscape (ili9488_rotation s) = true ->
  trace_of (ILI9488_SetAddressWindow x0 y0 x1 y1) s
  = window_events (uint16_t y0) (uint16_t y1) (uint16_t x0) (uint16_t x1).
Proof.
  intros H. unfold trace_of. rewrite SetAddressWindow_branches.
  rewrite dispatch, H, (landscape_not_portrait _ H).
  now rewrite window_sequence_run by apply uint16_range.
Qed.

(** The callee converts its arguments to 16 bits, so a caller's own
    conversion of a coordinate is absorbed. *)
Lemma SetAddressWindow_uint16 (x0 y0 x1 y1 : Z) :
  ILI9488_SetAddressWindow (uint16_t x0) (uint16_t y0) (uint16_t x1) (uint16_t y1)
  = ILI9488_SetAddressWindow x0 y0 x1 y1.
Proof.
  rewrite !SetAddressWindow_branches. unfold uint16_t.
  now rewrite !Z.mod_mod by lia.
Qed.

End Families.

(* ------------------------------------------------------------------ *)
(** ** What each drawing routine does, by family *)

Section Primitives.

Variable s : driver.

Lemma portrait_count :
  uint32_t (uint32_t ILI9488_PORTRAIT_WIDTH * ILI9488_PORTRAIT_HEIGHT) = 153600.
Proof. reflexivity. Qed.

Lemma landscape_count :
  uint32_t (uint32_t ILI9488_LANDSCAPE_WIDTH * ILI9488_LANDSCAPE_HEIGHT) = 153600.
Proof. reflexivity. Qed.

Lemma DrawPixel_run (x y color : Z) :
  ILI9488_DrawPixel x y color s
  = if is_portrait (ili9488_rotation s) then
      (tt, s, trace_of (ILI9488_SetAddressWindow x y x y) s
              ++ [DataWord (Z.land color 0x3FFFF)])
    else if is_landscape (ili9488_rotation s) then
      (tt, s, trace_of (ILI9488_SetAddressWindow y x y x) s
              ++ [DataWord (Z.land color 0x3FFFF)])
    else (tt, s, []).
Proof.
  unfold ILI9488_DrawPixel. cbv zeta.
  now rewrite dispatch, !window_then_word, !SetAddressWindow_uint16.
Qed.

Lemma FillRect_run (x y w h color : Z) :
  ILI9488_FillRect x y w h color s
  = if is_portrait (ili9488_rotation s) then
      (tt, s, trace_of (ILI9488_SetAddressWindow (uint16_t x) (uint16_t y)
                          (uint16_t x + uint16_t w - 1) (uint16_t y + uint16_t h - 1)) s
              ++ repeat (DataWord (Z.land color 0x3FFFF))
                        (Z.to_nat (uint16_t w * uint16_t h)))
    else if is_landscape (ili9488_rotation s) then
      (tt, s, trace_of (ILI9488_SetAddressWindow (uint16_t y) (uint16_t x)
                          (uint16_t y + uint16_t h - 1) (uint16_t x + uint16_t w - 1)) s
              ++ repeat (DataWord (Z.land color 0x3FFFF))
                        (Z.to_nat (uint16_t w * uint16_t h)))
    else (tt, s, []).
Proof.
  unfold ILI9488_FillRect. cbv zeta.
  rewrite dispatch, !window_then_run.
  rewrite (area_count (uint16_t w) (uint16_t h)),
    (area_count (uint16_t h) (uint16_t w)),
    (Z.mul_comm (uint16_t h)) by apply uint16_range.
  reflexivity.
Qed.

Lemma DrawRect_run (x y w h color : Z) :
  ILI9488_DrawRect x y w h color s
  = if is_portrait (ili9488_rotation s) then
      (tt, s, trace_of (ILI9488_SetAddressWindow (uint16_t x) (uint16_t y)
                          (uint16_t x + uint16_t w - 1) (uint16_t y + uint16_t h - 1)) s
              ++ repeat (DataWord (Z.land color 0x3FFFF))
                        (Z.to_nat (uint16_t w * uint16_t h)))
    else if is_landscape (ili9488_rotation s) then
      (tt, s, trace_of (ILI9488_SetAddressWindow (uint16_t y) (uint16_t x)
                          (uint16_t y + uint16_t h - 1) (uint16_t x + uint16_t w - 1)) s
              ++ repeat (DataWord (Z.land color 0x3FFFF))
                        (Z.to_nat (uint16_t w * uint16_t h)))
    else (tt, s, []).
Proof.
  unfold ILI9488_DrawRect. cbv zeta.
  rewrite dispatch, !window_then_run.
  rewrite (area_count (uint16_t w) (uint16_t h)),
    (area_count (uint16_t h) (uint16_t w)),
    (Z.mul_comm (uint16_t h)) by apply uint16_range.
  reflexivity.
Qed.

Lemma DrawLine_run (x0 y0 x1 y1 color : Z) :
  ILI9488_DrawLine x0 y0 x1 y1 color s
  = if is_portrait (ili9488_rotation s) then
      (tt, s, trace_of (ILI9488_SetAddressWindow x0 y0 x1 y1) s
              ++ repeat (DataWord (Z.land color 0x3FFFF)) (Z.to_nat 153600))
    else if is_landscape (ili9488_rotation s) then
      (tt, s, trace_of (ILI9488_SetAddressWindow y0 x0 y1 x1) s
              ++ repeat (DataWord (Z.land color 0x3FFFF)) (Z.to_nat 153600))
    else (tt, s, []).
Proof.
  unfold ILI9488_DrawLine. cbv zeta.
  rewrite dispatch, !window_then_run, !SetAddressWindow_uint16.
  now rewrite portrait_count, landscape_count.
Qed.

Lemma DrawCircle_run (x0 y0 radius color : Z) :
  ILI9488_DrawCircle x0 y0 radius color s
  = if is_portrait (ili9488_rotation s) then
      (tt, s, trace_of (ILI9488_SetAddressWindow (uint16_t x0) (uint16_t y0)
                          (uint16_t x0 + uint16_t radius) (uint16_t y0 + uint16_t radius)) s
              ++ repeat (DataWord (Z.land color 0x3FFFF)) (Z.to_nat 153600))
    else if is_landscape (ili9488_rotation s) then
      (tt, s, trace_of (ILI9488_SetAddressWindow (uint16_t y0) (uint16_t x0)
                          (uint16_t y0 + uint16_t radius) (uint16_t x0 + uint16_t radius)) s
              ++ repeat (DataWord (Z.land color 0x3FFFF)) (Z.to_nat 153600))
    else (tt, s, []).
Proof.
  unfold ILI9488_DrawCircle. cbv zeta.
  rewrite dispatch, !window_then_run.
  now rewrite portrait_count, landscape_count.
Qed.

Lemma FillCircle_run (x0 y0 radius color : Z) :
  ILI9488_FillCircle x0 y0 radius color s
  = if is_portrait (ili9488_rotation s) then
      (tt, s, trace_of (ILI9488_SetAddressWindow (uint16_t x0) (uint16_t y0)
                          (uint16_t x0 + uint16_t radius) (uint16_t y0 + uint16_t radius)) s
              ++ repeat (DataWord (Z.land color 0x3FFFF)) (Z.to_nat 153600))
    else if is_landscape (ili9488_rotation s) then
      (tt, s, trace_of (ILI9488_SetAddressWindow (uint16_t y0) (uint16_t x0)
                          (uint16_t y0 + uint16_t radius) (uint16_t x0 + uint16_t radius)) s
              ++ repeat (DataWord (Z.land color 0x3FFFF)) (Z.to_nat 153600))
    else (tt, s, []).
Proof.
  unfold ILI9488_FillCircle. cbv zeta.
  rewrite dispatch, !window_then_run.
  now rewrite portrait_count, landscape_count.
Qed.

Lemma FillBackground_run (color : Z) :
  ILI9488_FillBackground color s
  = if is_portrait (ili9488_rotation s) then
      (tt, s, trace_of (ILI9488_SetAddressWindow 0 0 319 479) s
              ++ repeat (DataWord (Z.land color 0x3FFFF)) (Z.to_nat 153600))
    else if is_landscape (ili9488_rotation s) then
      (tt, s, trace_of (ILI9488_SetAddressWindow 0 0 479 319) s
              ++ repeat (DataWord (Z.land color 0x3FFFF)) (Z.to_nat 153600))
    else (tt, s, []).
Proof.
  unfold ILI9488_FillBackground. cbv zeta.
  rewrite dispatch, !window_then_run.
  now rewrite portrait_count, landscape_count.
Qed.

End Primitives.

(* ------------------------------------------------------------------ *)
(** ** Rotation, initialisation and power routines *)

Section Lifecycle.

Lemma WriteCommand_opcode (c : Z) (s : driver) :
  in_uint8 c -> ILI9488_WriteCommand c s = (tt, s, [Command c]).
Proof.
  unfold in_uint8. intros H. unfold ILI9488_WriteCommand, emit.
  rewrite (uint8_small c) by exact H.
  rewrite <- (uint32_small c) at 1 by (unfold in_uint32; lia).
  rewrite byte_word by lia. reflexivity.
Qed.

Lemma rotations_entry_range (n : nat) : 0 <= nth n ili9488_rotations 0 < 2 ^ 18.
Proof. do 5 (destruct n as [|n]; [cbn; lia|]). cbn. destruct n; lia. Qed.

(** The register value chosen for a rotation argument. *)
Lemma SetRotation_run (rotation : Z) (s : driver) :
  ILI9488_SetRotation rotation s
  = (tt, s,
     [Command 0x36;
      DataWord (nth (Z.to_nat (if uint8_t rotation >? 3 then 0 else uint8_t rotation))
                    ili9488_rotations 0)]).
Proof.
  unfold ILI9488_SetRotation. cbv zeta. unfold bind.
  rewrite WriteCommand_opcode by (unfold in_uint8, CMD_MEMORY_ACCESS; lia).
  unfold ILI9488_WriteData, emit.
  rewrite byte_word by apply rotations_entry_range.
  reflexivity.
Qed.

Lemma uint8_idem (v : Z) : uint8_t (uint8_t v) = uint8_t v.
Proof. unfold uint8_t. apply Z.mod_mod. lia. Qed.

Lemma Init_run (rotation : Z) (s : driver) :
  ILI9488_Init rotation s
  = (tt, mkDriver (uint8_t rotation),
     [ResetLow; HAL_Delay 20; ResetHigh; HAL_Delay 120;
      Command 0x11; HAL_Delay 120;
      Command 0x3A; DataWord 0x66]
     ++ trace_of (ILI9488_SetRotation rotation) s
     ++ [Command 0x29; HAL_Delay 20]).
Proof.
  unfold ILI9488_Init, trace_of. cbv zeta. unfold bind.
  rewrite !SetRotation_run, uint8_idem. reflexivity.
Qed.

Lemma Sleep_run (s : driver) :
  ILI9488_Sleep s = (tt, s, [Command 0x28; HAL_Delay 20; Command 0x10; HAL_Delay 120]).
Proof. reflexivity. Qed.

Lemma WakeUp_run (s : driver) :
  ILI9488_WakeUp s = (tt, s, [Command 0x29; HAL_Delay 20; Command 0x11; HAL_Delay 20]).
Proof. reflexivity. Qed.

End Lifecycle.

(* ------------------------------------------------------------------ *)
(** ** Reading a window back *)

Section Readback.

(** The bytes of a window determine its four coordinates. *)
Lemma window_of_events (c0 c1 p0 p1 : Z) (rest : list event) :
  window_of (window_events c0 c1 p0 p1 ++ rest) = Some (c0, c1, p0, p1).
Proof.
  unfold window_events, window_of. cbn [app].
  now rewrite <- !Z.div_mod by lia.
Qed.

(** On the bus a pixel write names column x and page y in both
    families: the exchange of arguments in [ILI9488_DrawPixel] meets
    the exchange in [ILI9488_SetAddressWindow]. *)
Lemma DrawPixel_on_bus (s : driver) (x y color : Z) :
  enumerated (ili9488_rotation s) ->
  trace_of (ILI9488_DrawPixel x y color) s
  = window_events (uint16_t x) (uint16_t x) (uint16_t y) (uint16_t y)
    ++ [DataWord (Z.land color 0x3FFFF)].
Proof.
  intros H. apply enumerated_family in H. unfold trace_of at 1.
  rewrite DrawPixel_run. destruct H as [H|H].
  - rewrite H. cbn [snd]. now rewrite SetAddressWindow_portrait.
  - rewrite (landscape_not_portrait _ H), H. cbn [snd].
    now rewrite SetAddressWindow_landscape.
Qed.

End Readback.

(* ------------------------------------------------------------------ *)
(** ** Concrete runs *)

Example Write18_white : ILI9488_Write18 ILI9488_WHITE = 0x3FFFF.
Proof. reflexivity. Qed.

Example Init_portrait_run :
  ILI9488_Init ILI9488_ROTATION_PORTRAIT power_on
  = (tt, mkDriver 0,
     [ResetLow; HAL_Delay 20; ResetHigh; HAL_Delay 120;
      Command 0x11; HAL_Delay 120; Command 0x3A; DataWord 0x66;
      Command 0x36; DataWord 0x48; Command 0x29; HAL_Delay 20]).
Proof. reflexivity. Qed.

Example DrawPixel_portrait_10_20 :
  trace_of (ILI9488_DrawPixel 10 20 ILI9488_WHITE)
           (mkDriver ILI9488_ROTATION_PORTRAIT)
  = [Command 0x2A; DataWord 0; DataWord 10; DataWord 0; DataWord 10;
     Command 0x2B; DataWord 0; DataWord 20; DataWord 0; DataWord 20;
     Command 0x2C; DataWord 0x3FFFF].
Proof. reflexivity. Qed.

Example DrawPixel_landscape_10_20 :
  trace_of (ILI9488_DrawPixel 10 20 ILI9488_WHITE)
           (mkDriver ILI9488_ROTATION_LANDSCAPE)
  = [Command 0x2A; DataWord 0; DataWord 10; DataWord 0; DataWord 10;
     Command 0x2B; DataWord 0; DataWord 20; DataWord 0; DataWord 20;
     Command 0x2C; DataWord 0x3FFFF].
Proof. reflexivity. Qed.

Example SetAddressWindow_landscape_20_10 :
  trace_of (ILI9488_SetAddressWindow 20 10 20 10)
           (mkDriver ILI9488_ROTATION_LANDSCAPE)
  = [Command 0x2A; DataWord 0; DataWord 10; DataWord 0; DataWord 10;
     Command 0x2B; DataWord 0; DataWord 20; DataWord 0; DataWord 20;
     Command 0x2C].
Proof. reflexivity. Qed.

Example FillRect_portrait_2_by_2 :
  trace_of (ILI9488_FillRect 300 5 2 2 0x3F0000) power_on
  = [Command 0x2A; DataWord 1; DataWord 44; DataWord 1; DataWord 45;
     Command 0x2B; DataWord 0; DataWord 5; DataWord 0; DataWord 6;
     Command 0x2C;
     DataWord 0x30000; DataWord 0x30000; DataWord 0x30000; DataWord 0x30000].
Proof. reflexivity. Qed.

Example DrawPixel_rotation_5 :
  ILI9488_DrawPixel 10 20 ILI9488_WHITE (mkDriver 5) = (tt, mkDriver 5, []).
Proof. reflexivity. Qed.

(* ------------------------------------------------------------------ *)
(** ** Properties of the driver *)

(** C1, as stated, fails: after Init(portrait) and SetRotation(landscape)
    the stored rotation is still portrait, and DrawPixel(10,20,white)
    issues the window call (10,20,10,20), whose transactions differ from
    those of the window call (20,10,20,10). *)
Lemma SetRotation_then_DrawPixel_not_swapped :
  ili9488_rotation init_then_rotate = ILI9488_ROTATION_PORTRAIT
  /\ ili9488_rotation init_then_rotate <> ILI9488_ROTATION_LANDSCAPE
  /\ trace_of (ILI9488_DrawPixel 10 20 ILI9488_WHITE) init_then_rotate
     = trace_of (ILI9488_SetAddressWindow 10 20 10 20) init_then_rotate
       ++ [DataWord 0x3FFFF]
  /\ trace_of (ILI9488_DrawPixel 10 20 ILI9488_WHITE) init_then_rotate
     <> trace_of (ILI9488_SetAddressWindow 20 10 20 10) init_then_rotate
        ++ [DataWord 0x3FFFF].
Proof.
  repeat split; try reflexivity; vm_compute; discriminate.
Qed.

(** C1, amended: the rotation routine sends its two transactions and
    leaves the stored rotation as it was, so after Init(portrait) and
    SetRotation(landscape) a DrawPixel(10,20,c) issues the window call
    (10,20,10,20); the stored rotation is written by Init, is left as it
    is by drawing, and after Init(landscape) DrawPixel(10,20,c) issues
    the window call (20,10,20,10). *)
Theorem rotation_state_written_by_Init_only (s0 : driver) (color : Z) :
  (forall rotation s, state_after (ILI9488_SetRotation rotation) s = s)
  /\ (forall s,
        trace_of (ILI9488_SetRotation ILI9488_ROTATION_LANDSCAPE) s
        = [Command 0x36; DataWord 0x28])
  /\ (let s1 := state_after (ILI9488_Init ILI9488_ROTATION_PORTRAIT ;;
                             ILI9488_SetRotation ILI9488_ROTATION_LANDSCAPE) s0 in
      ili9488_rotation s1 = ILI9488_ROTATION_PORTRAIT
      /\ ILI9488_DrawPixel 10 20 color s1
         = (tt, s1, trace_of (ILI9488_SetAddressWindow 10 20 10 20) s1
                    ++ [DataWord (Z.land color 0x3FFFF)]))
  /\ (let s2 := state_after (ILI9488_Init ILI9488_ROTATION_LANDSCAPE) s0 in
      ili9488_rotation s2 = ILI9488_ROTATION_LANDSCAPE
      /\ ILI9488_DrawPixel 10 20 color s2
         = (tt, s2, trace_of (ILI9488_SetAddressWindow 20 10 20 10) s2
                    ++ [DataWord (Z.land color 0x3FFFF)])).
Proof.
  split; [|split; [|split]].
  - intros rotation s. unfold state_after. now rewrite SetRotation_run.
  - intros s. unfold trace_of. now rewrite SetRotation_run.
  - assert (E : state_after (ILI9488_Init ILI9488_ROTATION_PORTRAIT ;;
                             ILI9488_SetRotation ILI9488_ROTATION_LANDSCAPE) s0
                = mkDriver ILI9488_ROTATION_PORTRAIT).
    { unfold state_after, bind. now rewrite Init_run, SetRotation_run. }
    cbv zeta. rewrite E. split; [reflexivity|].
    now rewrite DrawPixel_run.
  - assert (E : state_after (ILI9488_Init ILI9488_ROTATION_LANDSCAPE) s0
                = mkDriver ILI9488_ROTATION_LANDSCAPE).
    { unfold state_after. now rewrite Init_run. }
    cbv zeta. rewrite E. split; [reflexivity|].
    now rewrite DrawPixel_run.
Qed.

(** C2: Init(5) writes the portrait register value 0x48 but stores 5,
    which is none of the four rotation values. *)
Theorem Init_stores_unclamped_rotation :
  ILI9488_Init 5 power_on
  = (tt, mkDriver 5,
     [ResetLow; HAL_Delay 20; ResetHigh; HAL_Delay 120;
      Command 0x11; HAL_Delay 120; Command 0x3A; DataWord 0x66;
      Command 0x36; DataWord 0x48; Command 0x29; HAL_Delay 20])
  /\ ~ enumerated (ili9488_rotation (state_after (ILI9488_Init 5) power_on)).
Proof.
  split; [reflexivity|].
  change (~ enumerated 5). unfold enumerated,
    ILI9488_ROTATION_PORTRAIT, ILI9488_ROTATION_LANDSCAPE,
    ILI9488_ROTATION_PORTRAIT_INV, ILI9488_ROTATION_LANDSCAPE_INV. lia.
Qed.

(** C3, as stated, fails: in portrait DrawLine(0,0,10,10,white) sets the
    window of columns 0..10 and pages 0..10, 121 pixels, where the full
    panel window of FillBackground is columns 0..319 and pages 0..479;
    DrawCircle(5,5,3,white) sets columns 5..8 and pages 5..8. *)
Lemma DrawLine_window_not_full_panel :
  window_of (trace_of (ILI9488_DrawLine 0 0 10 10 ILI9488_WHITE) power_on)
  = Some (0, 10, 0, 10)
  /\ window_of (trace_of (ILI9488_DrawCircle 5 5 3 ILI9488_WHITE) power_on)
     = Some (5, 8, 5, 8)
  /\ window_of (trace_of (ILI9488_FillBackground ILI9488_WHITE) power_on)
     = Some (0, 319, 0, 479)
  /\ window_area (0, 10, 0, 10)
     <> panel_width (ili9488_rotation power_on)
        * panel_height (ili9488_rotation power_on)
  /\ trace_of (ILI9488_DrawLine 0 0 10 10 ILI9488_WHITE) power_on
     <> trace_of (ILI9488_SetAddressWindow 0 0 319 479) power_on
        ++ repeat (DataWord 0x3FFFF) (Z.to_nat 153600).
Proof.
  assert (P : is_portrait (ili9488_rotation power_on) = true) by reflexivity.
  unfold trace_of at 1 2 3 4.
  rewrite DrawLine_run, DrawCircle_run, FillBackground_run, P. cbn [snd].
  rewrite !SetAddressWindow_portrait by exact P.
  rewrite !window_of_events.
  repeat split; try reflexivity.
  - vm_compute. discriminate.
  - generalize (repeat (DataWord (Z.land ILI9488_WHITE 0x3FFFF)) (Z.to_nat 153600)).
    generalize (repeat (DataWord 0x3FFFF) (Z.to_nat 153600)).
    intros l1 l2. vm_compute. discriminate.
Qed.

(** C3, amended: for each of the four rotations, DrawLine sets the
    window (x0,y0,x1,y1) of its arguments, DrawCircle and FillCircle set
    the window (x0,y0,x0+radius,y0+radius), with x and y exchanged in the
    landscape family, and each then writes exactly width*height = 153600
    words of the colour masked to 18 bits. *)
Theorem line_and_circles_window_and_count
    (s : driver) (x0 y0 x1 y1 radius color : Z) :
  enumerated (ili9488_rotation s) ->
  in_uint16 x0 -> in_uint16 y0 -> in_uint16 x1 -> in_uint16 y1 ->
  in_uint16 radius ->
  ILI9488_DrawLine x0 y0 x1 y1 color s
  = (tt, s,
     trace_of (if is_portrait (ili9488_rotation s)
               then ILI9488_SetAddressWindow x0 y0 x1 y1
               else ILI9488_SetAddressWindow y0 x0 y1 x1) s
     ++ repeat (DataWord (Z.land color 0x3FFFF))
               (Z.to_nat (panel_width (ili9488_rotation s)
                          * panel_height (ili9488_rotation s))))
  /\ ILI9488_DrawCircle x0 y0 radius color s
     = (tt, s,
        trace_of (if is_portrait (ili9488_rotation s)
                  then ILI9488_SetAddressWindow x0 y0 (x0 + radius) (y0 + radius)
                  else ILI9488_SetAddressWindow y0 x0 (y0 + radius) (x0 + radius)) s
        ++ repeat (DataWord (Z.land color 0x3FFFF))
                  (Z.to_nat (panel_width (ili9488_rotation s)
                             * panel_height (ili9488_rotation s))))
  /\ ILI9488_FillCircle x0 y0 radius color s
     = (tt, s,
        trace_of (if is_portrait (ili9488_rotation s)
                  then ILI9488_SetAddressWindow x0 y0 (x0 + radius) (y0 + radius)
                  else ILI9488_SetAddressWindow y0 x0 (y0 + radius) (x0 + radius)) s
        ++ repeat (DataWord (Z.land color 0x3FFFF))
                  (Z.to_nat (panel_width (ili9488_rotation s)
                             * panel_height (ili9488_rotation s))))
  /\ panel_width (ili9488_rotation s) * panel_height (ili9488_rotation s)
     = 153600.
Proof.
  intros H Hx0 Hy0 Hx1 Hy1 Hr. apply enumerated_family in H.
  rewrite panel_pixels, DrawLine_run, DrawCircle_run, FillCircle_run.
  rewrite !uint16_small by assumption.
  destruct H as [H|H].
  - rewrite H. auto.
  - rewrite (landscape_not_portrait _ H), H. auto.
Qed.

(** The hypotheses of the C3 statement hold for DrawLine(0,0,10,10,white) in the
    load-time state. *)
Lemma line_and_circles_window_and_count_witness :
  enumerated (ili9488_rotation power_on)
  /\ ILI9488_DrawLine 0 0 10 10 ILI9488_WHITE power_on
     = (tt, power_on,
        trace_of (if is_portrait (ili9488_rotation power_on)
                  then ILI9488_SetAddressWindow 0 0 10 10
                  else ILI9488_SetAddressWindow 0 0 10 10) power_on
        ++ repeat (DataWord (Z.land ILI9488_WHITE 0x3FFFF))
                  (Z.to_nat (panel_width (ili9488_rotation power_on)
                             * panel_height (ili9488_rotation power_on)))).
Proof.
  assert (E : enumerated (ili9488_rotation power_on)) by (left; reflexivity).
  split; [exact E|].
  refine (proj1 (line_and_circles_window_and_count
                   power_on 0 0 10 10 3 ILI9488_WHITE E _ _ _ _ _));
    unfold in_uint16; lia.
Defined.

(** C4: for each of the four rotations and all 16-bit x, y, w, h,
    FillRect issues the window (x,y,x+w-1,y+h-1), with x and y exchanged
    in the landscape family, and then exactly w*h data words, each the
    colour masked with 0x3FFFF; after Init(portrait),
    FillRect(0,0,320,480,0x3FFFFF) sends the column range (0,319), the
    page range (0,479), the memory-write command and then 153600 data
    words 0x3FFFF. *)
Theorem FillRect_window_and_count (s : driver) (x y w h color : Z) :
  enumerated (ili9488_rotation s) ->
  in_uint16 x -> in_uint16 y -> in_uint16 w -> in_uint16 h ->
  ILI9488_FillRect x y w h color s
  = (tt, s,
     trace_of (if is_portrait (ili9488_rotation s)
               then ILI9488_SetAddressWindow x y (x + w - 1) (y + h - 1)
               else ILI9488_SetAddressWindow y x (y + h - 1) (x + w - 1)) s
     ++ repeat (DataWord (Z.land color 0x3FFFF)) (Z.to_nat (w * h)))
  /\ forall s0,
       let s1 := state_after (ILI9488_Init ILI9488_ROTATION_PORTRAIT) s0 in
       ILI9488_FillRect 0 0 320 480 0x3FFFFF s1
       = (tt, s1,
          [Command 0x2A; DataWord 0; DataWord 0; DataWord 1; DataWord 0x3F;
           Command 0x2B; DataWord 0; DataWord 0; DataWord 1; DataWord 0xDF;
           Command 0x2C]
          ++ repeat (DataWord 0x3FFFF) (Z.to_nat 153600)).
Proof.
  intros H Hx Hy Hw Hh. apply enumerated_family in H. split.
  - rewrite FillRect_run, !uint16_small by assumption.
    destruct H as [H|H].
    + now rewrite H.
    + now rewrite (landscape_not_portrait _ H), H.
  - intros s0 s1.
    assert (E : s1 = mkDriver ILI9488_ROTATION_PORTRAIT).
    { unfold s1, state_after. now rewrite Init_run. }
    rewrite E, FillRect_run.
    change (is_portrait (ili9488_rotation (mkDriver ILI9488_ROTATION_PORTRAIT)))
      with true. cbv iota.
    rewrite SetAddressWindow_portrait by reflexivity.
    reflexivity.
Qed.

(** The hypotheses of the C4 statement hold for FillRect(3,4,2,5,white) in the
    load-time state. *)
Lemma FillRect_window_and_count_witness :
  enumerated (ili9488_rotation power_on)
  /\ ILI9488_FillRect 3 4 2 5 ILI9488_WHITE power_on
     = (tt, power_on,
        trace_of (if is_portrait (ili9488_rotation power_on)
                  then ILI9488_SetAddressWindow 3 4 (3 + 2 - 1) (4 + 5 - 1)
                  else ILI9488_SetAddressWindow 4 3 (4 + 5 - 1) (3 + 2 - 1)) power_on
        ++ repeat (DataWord (Z.land ILI9488_WHITE 0x3FFFF)) (Z.to_nat (2 * 5))).
Proof.
  assert (E : enumerated (ili9488_rotation power_on)) by (left; reflexivity).
  split; [exact E|].
  refine (proj1 (FillRect_window_and_count power_on 3 4 2 5 ILI9488_WHITE E _ _ _ _));
    unfold in_uint16; lia.
Defined.

(** C5: for every 8-bit argument the rotation routine sends exactly
    the command 0x36 and then one data byte, the table entry of the
    clamped argument: 0x48 for portrait, 0x28 for landscape, 0x88 for
    portrait inverted, 0xE8 for landscape inverted, and 0x48 for every
    argument of 4 or more. *)
Theorem SetRotation_command_and_table_entry (s : driver) (rotation : Z) :
  in_uint8 rotation ->
  (rotation = ILI9488_ROTATION_PORTRAIT ->
   ILI9488_SetRotation rotation s = (tt, s, [Command 0x36; DataWord 0x48]))
  /\ (rotation = ILI9488_ROTATION_LANDSCAPE ->
      ILI9488_SetRotation rotation s = (tt, s, [Command 0x36; DataWord 0x28]))
  /\ (rotation = ILI9488_ROTATION_PORTRAIT_INV ->
      ILI9488_SetRotation rotation s = (tt, s, [Command 0x36; DataWord 0x88]))
  /\ (rotation = ILI9488_ROTATION_LANDSCAPE_INV ->
      ILI9488_SetRotation rotation s = (tt, s, [Command 0x36; DataWord 0xE8]))
  /\ (4 <= rotation ->
      ILI9488_SetRotation rotation s = (tt, s, [Command 0x36; DataWord 0x48])).
Proof.
  intros H. rewrite SetRotation_run, (uint8_small rotation H).
  repeat split; intros E; try (subst rotation; reflexivity).
  destruct (Z.gtb_spec rotation 3) as [_|C]; [reflexivity|lia].
Qed.

(** The C5 statement at the argument 7, which is clamped. *)
Lemma SetRotation_command_and_table_entry_witness :
  in_uint8 7
  /\ ILI9488_SetRotation 7 power_on = (tt, power_on, [Command 0x36; DataWord 0x48]).
Proof.
  assert (H : in_uint8 7) by (unfold in_uint8; lia).
  split; [exact H|].
  refine (proj2 (proj2 (proj2 (proj2
            (SetRotation_command_and_table_entry power_on 7 H)))) _).
  lia.
Defined.

(** C6: for each of the four rotations, every (x,y) inside the extent
    of that rotation and every colour, DrawPixel issues the window call
    of the single point, (x,y,x,y) in the portrait family and (y,x,y,x)
    in the landscape family, followed by exactly one data word, the
    colour masked to 18 bits.  The window read back from the bus is the
    one point: columns x..x and pages y..y. *)
Theorem DrawPixel_single_point_window (s : driver) (x y color : Z) :
  enumerated (ili9488_rotation s) ->
  0 <= x < panel_width (ili9488_rotation s) ->
  0 <= y < panel_height (ili9488_rotation s) ->
  ILI9488_DrawPixel x y color s
  = (tt, s,
     trace_of (if is_portrait (ili9488_rotation s)
               then ILI9488_SetAddressWindow x y x y
               else ILI9488_SetAddressWindow y x y x) s
     ++ [DataWord (Z.land color 0x3FFFF)])
  /\ 0 <= Z.land color 0x3FFFF < 2 ^ 18
  /\ window_of (trace_of (ILI9488_DrawPixel x y color) s) = Some (x, x, y, y).
Proof.
  intros H Hx Hy.
  assert (Hx' : in_uint16 x).
  { unfold in_uint16, panel_width, ILI9488_PORTRAIT_WIDTH,
      ILI9488_LANDSCAPE_WIDTH in *.
    destruct (is_portrait (ili9488_rotation s)); lia. }
  assert (Hy' : in_uint16 y).
  { unfold in_uint16, panel_height, ILI9488_PORTRAIT_HEIGHT,
      ILI9488_LANDSCAPE_HEIGHT in *.
    destruct (is_portrait (ili9488_rotation s)); lia. }
  split; [|split; [apply mask18_range|]].
  - apply enumerated_family in H.
    rewrite DrawPixel_run. destruct H as [H|H].
    + now rewrite H.
    + now rewrite (landscape_not_portrait _ H), H.
  - rewrite DrawPixel_on_bus, window_of_events by exact H.
    now rewrite (uint16_small x Hx'), (uint16_small y Hy').
Qed.

(** The C6 statement at (10,20) in landscape. *)
Lemma DrawPixel_single_point_window_witness :
  enumerated (ili9488_rotation (mkDriver ILI9488_ROTATION_LANDSCAPE))
  /\ 0 <= 10 < panel_width (ili9488_rotation (mkDriver ILI9488_ROTATION_LANDSCAPE))
  /\ 0 <= 20 < panel_height (ili9488_rotation (mkDriver ILI9488_ROTATION_LANDSCAPE))
  /\ ILI9488_DrawPixel 10 20 ILI9488_WHITE (mkDriver ILI9488_ROTATION_LANDSCAPE)
     = (tt, mkDriver ILI9488_ROTATION_LANDSCAPE,
        trace_of
          (if is_portrait (ili9488_rotation (mkDriver ILI9488_ROTATION_LANDSCAPE))
           then ILI9488_SetAddressWindow 10 20 10 20
           else ILI9488_SetAddressWindow 20 10 20 10)
          (mkDriver ILI9488_ROTATION_LANDSCAPE)
        ++ [DataWord (Z.land ILI9488_WHITE 0x3FFFF)]).
Proof.
  assert (E : enumerated (ili9488_rotation (mkDriver ILI9488_ROTATION_LANDSCAPE)))
    by (right; left; reflexivity).
  assert (X : 0 <= 10 < panel_width (ili9488_rotation (mkDriver ILI9488_ROTATION_LANDSCAPE)))
    by (vm_compute; split; [discriminate|reflexivity]).
  assert (Y : 0 <= 20 < panel_height (ili9488_rotation (mkDriver ILI9488_ROTATION_LANDSCAPE)))
    by (vm_compute; split; [discriminate|reflexivity]).
  split; [exact E|]. split; [exact X|]. split; [exact Y|].
  exact (proj1 (DrawPixel_single_point_window
                  (mkDriver ILI9488_ROTATION_LANDSCAPE) 10 20 ILI9488_WHITE E X Y)).
Defined.

(** C7: for each of the four rotations and every colour c,
    FillBackground issues the window call (0,0,width-1,height-1) with
    the dimensions of the stored rotation, 320 by 480 in the portrait
    family and 480 by 320 in the landscape family, and then exactly
    width*height data words c & 0x3FFFF. *)
Theorem FillBackground_full_panel (s : driver) (color : Z) :
  enumerated (ili9488_rotation s) ->
  ILI9488_FillBackground color s
  = (tt, s,
     trace_of (ILI9488_SetAddressWindow 0 0
                 (panel_width (ili9488_rotation s) - 1)
                 (panel_height (ili9488_rotation s) - 1)) s
     ++ repeat (DataWord (Z.land color 0x3FFFF))
               (Z.to_nat (panel_width (ili9488_rotation s)
                          * panel_height (ili9488_rotation s))))
  /\ (is_portrait (ili9488_rotation s) = true ->
      panel_width (ili9488_rotation s) = 320
      /\ panel_height (ili9488_rotation s) = 480)
  /\ (is_landscape (ili9488_rotation s) = true ->
      panel_width (ili9488_rotation s) = 480
      /\ panel_height (ili9488_rotation s) = 320).
Proof.
  intros H. apply enumerated_family in H.
  rewrite panel_pixels, FillBackground_run. unfold panel_width, panel_height.
  split; [|split].
  - destruct H as [H|H].
    + now rewrite H.
    + now rewrite (landscape_not_portrait _ H), H.
  - intros P. now rewrite P.
  - intros P. now rewrite (landscape_not_portrait _ P).
Qed.

(** The C7 statement in landscape inverted. *)
Lemma FillBackground_full_panel_witness :
  enumerated (ili9488_rotation (mkDriver ILI9488_ROTATION_LANDSCAPE_INV))
  /\ ILI9488_FillBackground ILI9488_WHITE (mkDriver ILI9488_ROTATION_LANDSCAPE_INV)
     = (tt, mkDriver ILI9488_ROTATION_LANDSCAPE_INV,
        trace_of (ILI9488_SetAddressWindow 0 0
                    (panel_width (ili9488_rotation (mkDriver ILI9488_ROTATION_LANDSCAPE_INV)) - 1)
                    (panel_height (ili9488_rotation (mkDriver ILI9488_ROTATION_LANDSCAPE_INV)) - 1))
                 (mkDriver ILI9488_ROTATION_LANDSCAPE_INV)
        ++ repeat (DataWord (Z.land ILI9488_WHITE 0x3FFFF))
                  (Z.to_nat (panel_width (ili9488_rotation (mkDriver ILI9488_ROTATION_LANDSCAPE_INV))
                             * panel_height (ili9488_rotation (mkDriver ILI9488_ROTATION_LANDSCAPE_INV))))).
Proof.
  assert (E : enumerated (ili9488_rotation (mkDriver ILI9488_ROTATION_LANDSCAPE_INV)))
    by (right; right; right; reflexivity).
  split; [exact E|].
  exact (proj1 (FillBackground_full_panel
                  (mkDriver ILI9488_ROTATION_LANDSCAPE_INV) ILI9488_WHITE E)).
Defined.

(** C8: for every stored rotation and all arguments, DrawRect runs
    exactly as FillRect does: the same window call (x,y,x+w-1,y+h-1),
    with x and y exchanged in the landscape family, and the same w*h
    data words, the arguments taken as 16-bit values. *)
Theorem DrawRect_same_as_FillRect (s : driver) (x y w h color : Z) :
  ILI9488_DrawRect x y w h color s = ILI9488_FillRect x y w h color s
  /\ ILI9488_DrawRect x y w h color s
     = if is_portrait (ili9488_rotation s) then
         (tt, s,
          trace_of (ILI9488_SetAddressWindow (uint16_t x) (uint16_t y)
                      (uint16_t x + uint16_t w - 1) (uint16_t y + uint16_t h - 1)) s
          ++ repeat (DataWord (Z.land color 0x3FFFF))
                    (Z.to_nat (uint16_t w * uint16_t h)))
       else if is_landscape (ili9488_rotation s) then
         (tt, s,
          trace_of (ILI9488_SetAddressWindow (uint16_t y) (uint16_t x)
                      (uint16_t y + uint16_t h - 1) (uint16_t x + uint16_t w - 1)) s
          ++ repeat (DataWord (Z.land color 0x3FFFF))
                    (Z.to_nat (uint16_t w * uint16_t h)))
       else (tt, s, []).
Proof.
  split.
  - now rewrite DrawRect_run, FillRect_run.
  - apply DrawRect_run.
Qed.

(** C9: Sleep followed by WakeUp issues display-off 0x28, sleep-in
    0x10, display-on 0x29, sleep-out 0x11 in this order, with a delay of
    20 ms after display-off, 120 ms after sleep-in, 20 ms after
    display-on and 20 ms after sleep-out, and nothing else. *)
Theorem Sleep_then_WakeUp_sequence (s : driver) :
  (ILI9488_Sleep ;; ILI9488_WakeUp) s
  = (tt, s,
     [Command 0x28; HAL_Delay 20; Command 0x10; HAL_Delay 120;
      Command 0x29; HAL_Delay 20; Command 0x11; HAL_Delay 20]).
Proof.
  unfold bind. now rewrite Sleep_run, WakeUp_run.
Qed.

(** C10: when the stored rotation is none of the four values, the
    window routine and every drawing routine return without a single
    transaction and with the state as it was; Init stores any 8-bit
    argument as it is, so such a state is reached by Init with an
    argument outside the four values. *)
Theorem unenumerated_rotation_silences_drawing (s : driver) :
  ~ enumerated (ili9488_rotation s) ->
  (forall a b c d color : Z,
     ILI9488_SetAddressWindow a b c d s = (tt, s, [])
     /\ ILI9488_DrawPixel a b color s = (tt, s, [])
     /\ ILI9488_DrawLine a b c d color s = (tt, s, [])
     /\ ILI9488_DrawRect a b c d color s = (tt, s, [])
     /\ ILI9488_FillRect a b c d color s = (tt, s, [])
     /\ ILI9488_DrawCircle a b c color s = (tt, s, [])
     /\ ILI9488_FillCircle a b c color s = (tt, s, [])
     /\ ILI9488_FillBackground color s = (tt, s, []))
  /\ (forall rotation s0,
        in_uint8 rotation -> ~ enumerated rotation ->
        ili9488_rotation (state_after (ILI9488_Init rotation) s0) = rotation).
Proof.
  intros H. apply outside_family in H. destruct H as [P L]. split.
  - intros a b c d color.
    rewrite DrawPixel_run, DrawLine_run, DrawRect_run, FillRect_run,
      DrawCircle_run, FillCircle_run, FillBackground_run.
    rewrite SetAddressWindow_branches, dispatch.
    rewrite P, L. repeat split.
  - intros rotation s0 Hr _. unfold state_after.
    rewrite Init_run. cbn [fst snd ili9488_rotation].
    now apply uint8_small.
Qed.

(** The C10 statement in the state left by Init(5). *)
Lemma unenumerated_rotation_silences_drawing_witness :
  ~ enumerated (ili9488_rotation (state_after (ILI9488_Init 5) power_on))
  /\ ILI9488_FillBackground ILI9488_WHITE (state_after (ILI9488_Init 5) power_on)
     = (tt, state_after (ILI9488_Init 5) power_on, []).
Proof.
  assert (H : ~ enumerated (ili9488_rotation (state_after (ILI9488_Init 5) power_on))).
  { change (~ enumerated 5). unfold enumerated,
      ILI9488_ROTATION_PORTRAIT, ILI9488_ROTATION_LANDSCAPE,
      ILI9488_ROTATION_PORTRAIT_INV, ILI9488_ROTATION_LANDSCAPE_INV. lia. }
  split; [exact H|].
  apply (proj1 (unenumerated_rotation_silences_drawing
                  (state_after (ILI9488_Init 5) power_on) H) 0 0 0 0 ILI9488_WHITE).
Defined.

(* ------------------------------------------------------------------ *)
(** ** The transport, line by line *)

Section Lines.

Lemma drive_all_app (a b : list pin_op) (lv : levels) :
  drive_all (a ++ b) lv = drive_all b (drive_all a lv).
Proof. apply fold_left_app. Qed.

(** After the clears, every listed data line is low and every other
    line is as it was. *)
Lemma clears_levels (idxs : list nat) (lv : levels) (l : line) :
  drive_all (map (fun i => BSRR_reset (DB i)) idxs) lv l
  = match l with
    | DB j => if existsb (Nat.eqb j) idxs then false else lv l
    | _ => lv l
    end.
Proof.
  revert lv. induction idxs as [|a idxs IH]; intros lv.
  - now destruct l.
  - cbn [map drive_all fold_left]. fold (drive_all (map (fun i => BSRR_reset (DB i)) idxs)).
    rewrite IH. destruct l as [j| | | |]; cbn [drive line_eqb existsb]; try reflexivity.
    rewrite (Nat.eqb_sym a j).
    destruct (existsb (Nat.eqb j) idxs), (Nat.eqb j a); reflexivity.
Qed.

(** After the conditional sets, a listed data line whose bit is set is
    high and every other line is as it was. *)
Lemma sets_levels (d : Z) (idxs : list nat) (lv : levels) (l : line) :
  drive_all (flat_map (fun i => if DB_level d (Z.of_nat i)
                                then [BSRR_set (DB i)] else []) idxs) lv l
  = match l with
    | DB j => if existsb (Nat.eqb j) idxs && DB_level d (Z.of_nat j)
              then true else lv l
    | _ => lv l
    end.
Proof.
  revert lv. induction idxs as [|a idxs IH]; intros lv.
  - now destruct l.
  - cbn [flat_map]. rewrite drive_all_app, IH.
    destruct l as [j| | | |]; cbn [existsb];
      try (destruct (DB_level d (Z.of_nat a)); reflexivity).
    destruct (Nat.eqb_spec j a) as [->|Hne].
    + destruct (DB_level d (Z.of_nat a)); cbn [drive_all fold_left drive line_eqb orb andb].
      * rewrite Nat.eqb_refl. now destruct (existsb (Nat.eqb a) idxs).
      * now rewrite andb_false_r.
    + cbn [orb].
      destruct (DB_level d (Z.of_nat a)); cbn [drive_all fold_left drive line_eqb];
        [|reflexivity].
      destruct (Nat.eqb_spec a j) as [E|_]; [congruence|reflexivity].
Qed.

Lemma DB_listed (i : nat) : (i < 18)%nat -> existsb (Nat.eqb i) DB_indices = true.
Proof.
  intros H. apply existsb_exists. exists i. split.
  - unfold DB_indices. apply in_seq. lia.
  - apply Nat.eqb_refl.
Qed.

(** Levels once [ILI9488_Write18] has run. *)
Lemma Write18_ops_levels (data : Z) (lv : levels) (l : line) :
  drive_all (Write18_ops data) lv l
  = match l with
    | DB j => if existsb (Nat.eqb j) DB_indices
              then DB_level (uint32_t data) (Z.of_nat j) else lv l
    | WR => true
    | _ => lv l
    end.
Proof.
  unfold Write18_ops. cbv zeta. rewrite !drive_all_app.
  cbn [drive_all fold_left drive].
  destruct l as [j| | | |]; cbn [line_eqb]; try reflexivity;
    rewrite sets_levels, clears_levels; try reflexivity.
  destruct (existsb (Nat.eqb j) DB_indices); cbn [andb]; [|reflexivity].
  now destruct (DB_level (uint32_t data) (Z.of_nat j)).
Qed.

Lemma word_on_bus_ext (lv lv' : levels) :
  (forall i, (i < 18)%nat -> lv (DB i) = lv' (DB i)) ->
  word_on_bus lv = word_on_bus lv'.
Proof.
  intros H. unfold word_on_bus. f_equal. apply map_ext_in.
  intros i Hi. apply H. unfold DB_indices in Hi. apply in_seq in Hi. lia.
Qed.

Lemma word_after_Write18 (data : Z) (lv : levels) :
  word_on_bus (drive_all (Write18_ops data) lv) = ILI9488_Write18 data.
Proof.
  unfold word_on_bus, ILI9488_Write18.
  change DB_lines with (map Z.of_nat DB_indices). rewrite map_map.
  f_equal. apply map_ext_in. intros i Hi.
  rewrite Write18_ops_levels, DB_listed; [reflexivity|].
  unfold DB_indices in Hi. apply in_seq in Hi. lia.
Qed.

Lemma sample_app (a b : list pin_op) (lv : levels) :
  sample lv (a ++ b) = sample lv a ++ sample (drive_all a lv) b.
Proof.
  revert lv. induction a as [|op a IH]; intros lv.
  - reflexivity.
  - cbn [app sample drive_all fold_left]. rewrite IH, app_assoc. reflexivity.
Qed.

(** No statement other than the raising of WR makes the controller take
    a word. *)
Lemma sample_silent (ops : list pin_op) (lv : levels) :
  (forall op, In op ops -> op <> BSRR_set WR) -> sample lv ops = [].
Proof.
  revert lv. induction ops as [|op ops IH]; intros lv H.
  - reflexivity.
  - cbn [sample]. rewrite IH by (intros o Ho; apply H; now right).
    assert (Hop : op <> BSRR_set WR) by (apply H; now left).
    rewrite app_nil_r.
    destruct op as [l|l|]; [destruct l|destruct l|];
      cbn [drive line_eqb]; try congruence;
      destruct (lv WR); reflexivity.
Qed.

(** The clears and conditional sets of [ILI9488_Write18] leave WR alone. *)
Lemma Write18_data_phase_silent (d : Z) (lv : levels) :
  sample lv (map (fun i => BSRR_reset (DB i)) DB_indices
             ++ flat_map (fun i => if DB_level d (Z.of_nat i)
                                   then [BSRR_set (DB i)] else []) DB_indices)
  = [].
Proof.
  apply sample_silent. intros op Hop. apply in_app_or in Hop.
  destruct Hop as [Hop|Hop].
  - apply in_map_iff in Hop. destruct Hop as (i & <- & _). discriminate.
  - apply in_flat_map in Hop. destruct Hop as (i & _ & Hi).
    destruct (DB_level d (Z.of_nat i)); [|contradiction].
    destruct Hi as [<-|[]]. discriminate.
Qed.

(** What the controller takes from one run of [ILI9488_Write18], given
    the select lines at its start. *)
Lemma sample_Write18 (data : Z) (lv : levels) :
  lv CS = false ->
  sample lv (Write18_ops data)
  = [if lv DCX then DataWord (ILI9488_Write18 data)
     else Command (ILI9488_Write18 data)].
Proof.
  intros Hcs.
  assert (W := word_after_Write18 data lv).
  assert (Lcs := Write18_ops_levels data lv CS).
  assert (Ldcx := Write18_ops_levels data lv DCX).
  cbn beta iota in Lcs, Ldcx.
  unfold Write18_ops in *. cbv zeta in *.
  rewrite app_assoc in *. rewrite sample_app, Write18_data_phase_silent.
  rewrite drive_all_app in W, Lcs, Ldcx.
  set (lv1 := drive_all _ lv) in *.
  cbn [drive_all fold_left] in W, Lcs, Ldcx.
  cbn [app sample]. cbn [drive] in *. cbn [line_eqb] in *.
  rewrite Lcs, Hcs, Ldcx. cbn [negb andb app].
  rewrite andb_false_r. cbn [andb app].
  now rewrite W.
Qed.

End Lines.

Section LinesToTransactions.

Lemma Write18_byte (c : Z) : ILI9488_Write18 (uint8_t c) = c mod 2 ^ 8.
Proof.
  unfold uint8_t.
  pose proof (Z.mod_pos_bound c (2 ^ 8) ltac:(lia)) as B.
  rewrite <- (uint32_small (c mod 2 ^ 8)) at 1 by (unfold in_uint32; lia).
  apply byte_word. lia.
Qed.

Lemma Write18_word (d : Z) : ILI9488_Write18 (uint32_t d) = d mod 2 ^ 18.
Proof.
  rewrite Write18_low_bits, mask18_uint32.
  change 0x3FFFF with (Z.ones 18). apply Z.land_ones. lia.
Qed.

(** What the controller takes from a selected transaction: the two
    select statements, one [ILI9488_Write18], the release of CS. *)
Lemma sample_transaction (dcx : pin_op) (data : Z) (lv : levels) :
  dcx = BSRR_reset DCX \/ dcx = BSRR_set DCX ->
  sample lv ([BSRR_reset CS; dcx] ++ Write18_ops data ++ [BSRR_set CS])
  = [if drive lv dcx DCX then DataWord (ILI9488_Write18 data)
     else Command (ILI9488_Write18 data)]
  /\ drive_all ([BSRR_reset CS; dcx] ++ Write18_ops data ++ [BSRR_set CS]) lv CS
     = true
  /\ drive_all ([BSRR_reset CS; dcx] ++ Write18_ops data ++ [BSRR_set CS]) lv WR
     = true.
Proof.
  intros Hd. split; [|split].
  - rewrite sample_app, sample_app.
    rewrite (sample_silent [BSRR_reset CS; dcx])
      by (intros op [<-|[<-|[]]]; [discriminate | destruct Hd; subst; discriminate]).
    cbn [app]. rewrite sample_Write18.
    + cbn [sample]. rewrite Write18_ops_levels. cbn [negb andb app].
      destruct Hd; subst dcx; reflexivity.
    + destruct Hd; subst dcx; reflexivity.
  - rewrite !drive_all_app. reflexivity.
  - rewrite !drive_all_app. cbn [drive_all fold_left drive line_eqb].
    now rewrite Write18_ops_levels.
Qed.

End LinesToTransactions.

(** X1: whatever the lines were before, once [ILI9488_Write18] has run
    data line DBi carries bit i of the datum for each i below 18, so the
    bus word is the datum modulo 2^18; WR is high again and the select
    and reset lines are as they were. *)
Theorem Write18_lines_carry_low_bits (data : Z) (lv : levels) :
  (forall i, (i < 18)%nat ->
     drive_all (Write18_ops data) lv (DB i) = Z.testbit data (Z.of_nat i))
  /\ word_on_bus (drive_all (Write18_ops data) lv) = data mod 2 ^ 18
  /\ drive_all (Write18_ops data) lv WR = true
  /\ drive_all (Write18_ops data) lv CS = lv CS
  /\ drive_all (Write18_ops data) lv DCX = lv DCX
  /\ drive_all (Write18_ops data) lv RESET = lv RESET.
Proof.
  repeat split; try (now rewrite Write18_ops_levels).
  - intros i Hi. rewrite Write18_ops_levels, DB_listed by exact Hi.
    rewrite DB_level_testbit by lia. unfold uint32_t.
    apply Z.mod_pow2_bits_low. lia.
  - rewrite word_after_Write18, Write18_low_bits.
    change 0x3FFFF with (Z.ones 18). apply Z.land_ones. lia.
Qed.

(** X2: from any line levels, the statements of [ILI9488_WriteCommand]
    make the controller take exactly one word, as a command, equal to
    the argument modulo 256, which is the event of the transaction
    model; chip select and WR are high at the end. *)
Theorem WriteCommand_lines_one_command (cmd : Z) (lv : levels) (s : driver) :
  sample lv (WriteCommand_ops cmd) = [Command (cmd mod 2 ^ 8)]
  /\ sample lv (WriteCommand_ops cmd) = trace_of (ILI9488_WriteCommand cmd) s
  /\ drive_all (WriteCommand_ops cmd) lv CS = true
  /\ drive_all (WriteCommand_ops cmd) lv WR = true.
Proof.
  destruct (sample_transaction (BSRR_reset DCX) (uint8_t cmd) lv) as (A & B & C);
    [now left|].
  unfold WriteCommand_ops. rewrite A, B, C.
  unfold trace_of, ILI9488_WriteCommand, emit. cbn [snd drive line_eqb].
  rewrite Write18_byte. auto.
Qed.

(** X3: from any line levels, the statements of [ILI9488_WriteData]
    make the controller take exactly one word, as data, equal to the
    argument modulo 2^18, which is the event of the transaction model;
    chip select and WR are high at the end. *)
Theorem WriteData_lines_one_word (data : Z) (lv : levels) (s : driver) :
  sample lv (WriteData_ops data) = [DataWord (data mod 2 ^ 18)]
  /\ sample lv (WriteData_ops data) = trace_of (ILI9488_WriteData data) s
  /\ drive_all (WriteData_ops data) lv CS = true
  /\ drive_all (WriteData_ops data) lv WR = true.
Proof.
  destruct (sample_transaction (BSRR_set DCX) (uint32_t data) lv) as (A & B & C);
    [now right|].
  unfold WriteData_ops. rewrite A, B, C.
  unfold trace_of, ILI9488_WriteData, emit. cbn [snd drive line_eqb].
  rewrite Write18_word. auto.
Qed.

(* ------------------------------------------------------------------ *)
(** ** The drawing routines on the bus *)

Section OnBus.

(** A routine that exchanges x and y for the landscape family before it
    calls the window routine sends the same eleven window transactions
    in both families. *)
Lemma both_families (s : driver) (a b c d : Z) (rest : list event) :
  enumerated (ili9488_rotation s) ->
  (if is_portrait (ili9488_rotation s)
   then (tt, s, trace_of (ILI9488_SetAddressWindow a b c d) s ++ rest)
   else if is_landscape (ili9488_rotation s)
   then (tt, s, trace_of (ILI9488_SetAddressWindow b a d c) s ++ rest)
   else (tt, s, []))
  = (tt, s, window_events (uint16_t a) (uint16_t c) (uint16_t b) (uint16_t d)
            ++ rest).
Proof.
  intros H. apply enumerated_family in H. destruct H as [H|H].
  - now rewrite H, SetAddressWindow_portrait.
  - now rewrite (landscape_not_portrait _ H), H, SetAddressWindow_landscape.
Qed.

Lemma uint16_twice (v : Z) : uint16_t (uint16_t v) = uint16_t v.
Proof. unfold uint16_t. apply Z.mod_mod. lia. Qed.

Lemma DrawPixel_bus (s : driver) (x y color : Z) :
  enumerated (ili9488_rotation s) ->
  ILI9488_DrawPixel x y color s
  = (tt, s, window_events (uint16_t x) (uint16_t x) (uint16_t y) (uint16_t y)
            ++ [DataWord (Z.land color 0x3FFFF)]).
Proof. intros H. now rewrite DrawPixel_run, both_families. Qed.

Lemma DrawLine_bus (s : driver) (x0 y0 x1 y1 color : Z) :
  enumerated (ili9488_rotation s) ->
  ILI9488_DrawLine x0 y0 x1 y1 color s
  = (tt, s, window_events (uint16_t x0) (uint16_t x1) (uint16_t y0) (uint16_t y1)
            ++ repeat (DataWord (Z.land color 0x3FFFF)) (Z.to_nat 153600)).
Proof. intros H. now rewrite DrawLine_run, both_families. Qed.

Lemma FillRect_bus (s : driver) (x y w h color : Z) :
  enumerated (ili9488_rotation s) ->
  ILI9488_FillRect x y w h color s
  = (tt, s, window_events (uint16_t x) (uint16_t (uint16_t x + uint16_t w - 1))
                          (uint16_t y) (uint16_t (uint16_t y + uint16_t h - 1))
            ++ repeat (DataWord (Z.land color 0x3FFFF))
                      (Z.to_nat (uint16_t w * uint16_t h))).
Proof.
  intros H. rewrite FillRect_run, both_families by exact H.
  now rewrite !uint16_twice.
Qed.

Lemma DrawRect_bus (s : driver) (x y w h color : Z) :
  enumerated (ili9488_rotation s) ->
  ILI9488_DrawRect x y w h color s
  = (tt, s, window_events (uint16_t x) (uint16_t (uint16_t x + uint16_t w - 1))
                          (uint16_t y) (uint16_t (uint16_t y + uint16_t h - 1))
            ++ repeat (DataWord (Z.land color 0x3FFFF))
                      (Z.to_nat (uint16_t w * uint16_t h))).
Proof.
  intros H. rewrite DrawRect_run, both_families by exact H.
  now rewrite !uint16_twice.
Qed.

Lemma DrawCircle_bus (s : driver) (x0 y0 radius color : Z) :
  enumerated (ili9488_rotation s) ->
  ILI9488_DrawCircle x0 y0 radius color s
  = (tt, s, window_events (uint16_t x0) (uint16_t (uint16_t x0 + uint16_t radius))
                          (uint16_t y0) (uint16_t (uint16_t y0 + uint16_t radius))
            ++ repeat (DataWord (Z.land color 0x3FFFF)) (Z.to_nat 153600)).
Proof.
  intros H. rewrite DrawCircle_run, both_families by exact H.
  now rewrite !uint16_twice.
Qed.

Lemma FillCircle_bus (s : driver) (x0 y0 radius color : Z) :
  enumerated (ili9488_rotation s) ->
  ILI9488_FillCircle x0 y0 radius color s
  = (tt, s, window_events (uint16_t x0) (uint16_t (uint16_t x0 + uint16_t radius))
                          (uint16_t y0) (uint16_t (uint16_t y0 + uint16_t radius))
            ++ repeat (DataWord (Z.land color 0x3FFFF)) (Z.to_nat 153600)).
Proof.
  intros H. rewrite FillCircle_run, both_families by exact H.
  now rewrite !uint16_twice.
Qed.

Lemma FillBackground_bus (s : driver) (color : Z) :
  enumerated (ili9488_rotation s) ->
  ILI9488_FillBackground color s
  = (tt, s, window_events 0 319 0 479
            ++ repeat (DataWord (Z.land color 0x3FFFF)) (Z.to_nat 153600)).
Proof.
  intros H. now rewrite FillBackground_run, (both_families s 0 0 319 479).
Qed.

End OnBus.

(* ------------------------------------------------------------------ *)
(** ** Further properties of the driver *)



(** X5: the stored rotation, as long as it is one of the four values,
    does not change what a drawing routine sends: each of the seven
    routines emits the same transactions in any two such states, the
    exchange of x and y in the routine being undone by the exchange in
    the window routine. *)
Theorem drawing_same_in_every_rotation (s1 s2 : driver) (a b c d color : Z) :
  enumerated (ili9488_rotation s1) ->
  enumerated (ili9488_rotation s2) ->
  trace_of (ILI9488_DrawPixel a b color) s1
  = trace_of (ILI9488_DrawPixel a b color) s2
  /\ trace_of (ILI9488_DrawLine a b c d color) s1
     = trace_of (ILI9488_DrawLine a b c d color) s2
  /\ trace_of (ILI9488_DrawRect a b c d color) s1
     = trace_of (ILI9488_DrawRect a b c d color) s2
  /\ trace_of (ILI9488_FillRect a b c d color) s1
     = trace_of (ILI9488_FillRect a b c d color) s2
  /\ trace_of (ILI9488_DrawCircle a b c color) s1
     = trace_of (ILI9488_DrawCircle a b c color) s2
  /\ trace_of (ILI9488_FillCircle a b c color) s1
     = trace_of (ILI9488_FillCircle a b c color) s2
  /\ trace_of (ILI9488_FillBackground color) s1
     = trace_of (ILI9488_FillBackground color) s2.
Proof.
  intros H1 H2. unfold trace_of.
  split; [|split; [|split; [|split; [|split; [|split]]]]].
  - rewrite (DrawPixel_bus s1), (DrawPixel_bus s2) by assumption. reflexivity.
  - rewrite (DrawLine_bus s1), (DrawLine_bus s2) by assumption. reflexivity.
  - rewrite (DrawRect_bus s1), (DrawRect_bus s2) by assumption. reflexivity.
  - rewrite (FillRect_bus s1), (FillRect_bus s2) by assumption. reflexivity.
  - rewrite (DrawCircle_bus s1), (DrawCircle_bus s2) by assumption. reflexivity.
  - rewrite (FillCircle_bus s1), (FillCircle_bus s2) by assumption. reflexivity.
  - rewrite (FillBackground_bus s1), (FillBackground_bus s2) by assumption.
    reflexivity.
Qed.

(** The X5 statement for portrait against landscape. *)
Lemma drawing_same_in_every_rotation_witness :
  enumerated (ili9488_rotation (mkDriver ILI9488_ROTATION_PORTRAIT))
  /\ enumerated (ili9488_rotation (mkDriver ILI9488_ROTATION_LANDSCAPE))
  /\ trace_of (ILI9488_FillRect 3 4 2 5 ILI9488_WHITE)
              (mkDriver ILI9488_ROTATION_PORTRAIT)
     = trace_of (ILI9488_FillRect 3 4 2 5 ILI9488_WHITE)
                (mkDriver ILI9488_ROTATION_LANDSCAPE).
Proof.
  assert (P : enumerated (ili9488_rotation (mkDriver ILI9488_ROTATION_PORTRAIT)))
    by (left; reflexivity).
  assert (L : enumerated (ili9488_rotation (mkDriver ILI9488_ROTATION_LANDSCAPE)))
    by (right; left; reflexivity).
  split; [exact P|]. split; [exact L|].
  exact (proj1 (proj2 (proj2 (proj2
           (drawing_same_in_every_rotation
              (mkDriver ILI9488_ROTATION_PORTRAIT)
              (mkDriver ILI9488_ROTATION_LANDSCAPE) 3 4 2 5 ILI9488_WHITE P L))))).
Defined.

(** X6: in every state FillBackground(c) runs exactly as
    FillRect(0,0,320,480,c), also when the stored rotation is a
    landscape one. *)
Theorem FillBackground_is_portrait_FillRect (s : driver) (color : Z) :
  ILI9488_FillBackground color s
  = ILI9488_FillRect 0 0 ILI9488_PORTRAIT_WIDTH ILI9488_PORTRAIT_HEIGHT color s.
Proof.
  rewrite FillBackground_run, FillRect_run.
  change (uint16_t ILI9488_PORTRAIT_WIDTH * uint16_t ILI9488_PORTRAIT_HEIGHT)
    with 153600.
  reflexivity.
Qed.



Section MoreHelpers.

(** The window routine sees its arguments modulo 2^16 only. *)
Lemma SetAddressWindow_mod (a b c d a' b' c' d' : Z) :
  uint16_t a = uint16_t a' -> uint16_t b = uint16_t b' ->
  uint16_t c = uint16_t c' -> uint16_t d = uint16_t d' ->
  ILI9488_SetAddressWindow a b c d = ILI9488_SetAddressWindow a' b' c' d'.
Proof.
  intros Ha Hb Hc Hd. rewrite !SetAddressWindow_branches.
  now rewrite Ha, Hb, Hc, Hd.
Qed.

Lemma uint16_add (a b : Z) : uint16_t (uint16_t a + uint16_t b) = uint16_t (a + b).
Proof. unfold uint16_t. symmetry. apply Z.add_mod. lia. Qed.

Lemma Forall_stream_window (c0 c1 p0 p1 : Z) :
  Forall stream_event (window_events (uint16_t c0) (uint16_t c1)
                                     (uint16_t p0) (uint16_t p1)).
Proof.
  assert (B : forall v, 0 <= uint16_t v / 256 < 2 ^ 18
                        /\ 0 <= uint16_t v mod 256 < 2 ^ 18).
  { intros v. pose proof (uint16_range v) as Hv. unfold in_uint16 in Hv. split.
    - split; [apply Z.div_pos; lia | apply Z.div_lt_upper_bound; lia].
    - pose proof (Z.mod_pos_bound (uint16_t v) 256). lia. }
  unfold window_events.
  repeat (apply Forall_cons; [cbn [stream_event]; try apply B; auto|]).
  apply Forall_nil.
Qed.

Lemma Forall_stream_repeat (color : Z) (n : nat) :
  Forall stream_event (repeat (DataWord (Z.land color 0x3FFFF)) n).
Proof.
  apply Forall_forall. intros e He. apply repeat_spec in He. subst e.
  apply mask18_range.
Qed.

End MoreHelpers.

(** X8: DrawCircle and FillCircle run identically in every state and
    for all arguments, and both run as DrawLine does from (x0,y0) to
    (x0+radius, y0+radius): none of them uses the radius for anything
    but the far corner of the window. *)
Theorem circles_are_one_routine (s : driver) (x0 y0 radius color : Z) :
  ILI9488_DrawCircle x0 y0 radius color s = ILI9488_FillCircle x0 y0 radius color s
  /\ ILI9488_DrawCircle x0 y0 radius color s
     = ILI9488_DrawLine x0 y0 (x0 + radius) (y0 + radius) color s.
Proof.
  split.
  - now rewrite DrawCircle_run, FillCircle_run.
  - rewrite DrawCircle_run, DrawLine_run.
    rewrite (SetAddressWindow_mod (uint16_t x0) (uint16_t y0)
               (uint16_t x0 + uint16_t radius) (uint16_t y0 + uint16_t radius)
               x0 y0 (x0 + radius) (y0 + radius))
      by (first [apply uint16_twice | symmetry; apply Z.add_mod; lia]).
    rewrite (SetAddressWindow_mod (uint16_t y0) (uint16_t x0)
               (uint16_t y0 + uint16_t radius) (uint16_t x0 + uint16_t radius)
               y0 x0 (y0 + radius) (x0 + radius))
      by (first [apply uint16_twice | symmetry; apply Z.add_mod; lia]).
    reflexivity.
Qed.

(** X9: the stored rotation is written by Init and by nothing else: the
    window routine, the seven drawing routines, the rotation routine
    and the four power routines all return in the state they were
    called in, for every state and all arguments, and Init leaves its
    argument modulo 256 whatever the state before. *)
Theorem only_Init_writes_rotation (s : driver) (a b c d color : Z) :
  state_after (ILI9488_SetAddressWindow a b c d) s = s
  /\ state_after (ILI9488_DrawPixel a b color) s = s
  /\ state_after (ILI9488_DrawLine a b c d color) s = s
  /\ state_after (ILI9488_DrawRect a b c d color) s = s
  /\ state_after (ILI9488_FillRect a b c d color) s = s
  /\ state_after (ILI9488_DrawCircle a b c color) s = s
  /\ state_after (ILI9488_FillCircle a b c color) s = s
  /\ state_after (ILI9488_FillBackground color) s = s
  /\ state_after (ILI9488_SetRotation a) s = s
  /\ state_after ILI9488_DisplayOff s = s
  /\ state_after ILI9488_DisplayOn s = s
  /\ state_after ILI9488_Sleep s = s
  /\ state_after ILI9488_WakeUp s = s
  /\ state_after (ILI9488_Init a) s = mkDriver (a mod 2 ^ 8).
Proof.
  unfold state_after.
  split. { now rewrite (quiet_SetAddressWindow a b c d s). }
  split. { rewrite DrawPixel_run.
           now destruct (is_portrait (ili9488_rotation s)), (is_landscape (ili9488_rotation s)). }
  split. { rewrite DrawLine_run.
           now destruct (is_portrait (ili9488_rotation s)), (is_landscape (ili9488_rotation s)). }
  split. { rewrite DrawRect_run.
           now destruct (is_portrait (ili9488_rotation s)), (is_landscape (ili9488_rotation s)). }
  split. { rewrite FillRect_run.
           now destruct (is_portrait (ili9488_rotation s)), (is_landscape (ili9488_rotation s)). }
  split. { rewrite DrawCircle_run.
           now destruct (is_portrait (ili9488_rotation s)), (is_landscape (ili9488_rotation s)). }
  split. { rewrite FillCircle_run.
           now destruct (is_portrait (ili9488_rotation s)), (is_landscape (ili9488_rotation s)). }
  split. { rewrite FillBackground_run.
           now destruct (is_portrait (ili9488_rotation s)), (is_landscape (ili9488_rotation s)). }
  split. { now rewrite SetRotation_run. }
  split; [reflexivity|]. split; [reflexivity|].
  split. { now rewrite Sleep_run. }
  split. { now rewrite WakeUp_run. }
  now rewrite Init_run.
Qed.

(** X10: for every argument and from every state Init emits the same
    twelve events in the same order: reset low, 20 ms, reset high,
    120 ms, sleep-out, 120 ms, pixel format with 0x66, memory access
    control with one byte, display-on, 20 ms, and it stores the argument
    modulo 256.  The byte always is an entry of the rotation table: the
    entry of the stored value when that is at most 3, so that controller
    and driver agree, and the portrait entry 0x48 otherwise. *)
Theorem Init_sequence (rotation : Z) (s : driver) :
  exists b,
    ILI9488_Init rotation s
    = (tt, mkDriver (rotation mod 2 ^ 8),
       [ResetLow; HAL_Delay 20; ResetHigh; HAL_Delay 120;
        Command 0x11; HAL_Delay 120; Command 0x3A; DataWord 0x66;
        Command 0x36; DataWord b; Command 0x29; HAL_Delay 20])
    /\ In b ili9488_rotations
    /\ (rotation mod 2 ^ 8 <= 3 ->
        b = nth (Z.to_nat (rotation mod 2 ^ 8)) ili9488_rotations 0)
    /\ (4 <= rotation mod 2 ^ 8 -> b = 0x48).
Proof.
  rewrite Init_run. unfold trace_of.
  rewrite SetRotation_run. cbn [snd app].
  fold (uint8_t rotation).
  pose proof (Z.mod_pos_bound rotation (2 ^ 8) ltac:(lia)) as B.
  fold (uint8_t rotation) in B.
  eexists. split; [reflexivity|].
  destruct (Z.gtb_spec (uint8_t rotation) 3) as [G|G].
  - split; [now left|]. split; [lia|reflexivity].
  - split; [|split; [reflexivity|lia]].
    assert (C : uint8_t rotation = 0 \/ uint8_t rotation = 1
                \/ uint8_t rotation = 2 \/ uint8_t rotation = 3) by lia.
    destruct C as [C|[C|[C|C]]]; rewrite C; cbn; auto.
Qed.

Section Silence.

Lemma enumerated_or_not (r : Z) : enumerated r \/ ~ enumerated r.
Proof.
  destruct (is_portrait r) eqn:P; [left; apply enumerated_family; now left|].
  destruct (is_landscape r) eqn:L; [left; apply enumerated_family; now right|].
  right. intros E. apply enumerated_family in E. destruct E; congruence.
Qed.


Lemma neither_family (A : Type) (r : Z) (x y z : A) :
  ~ enumerated r ->
  (if is_portrait r then x else if is_landscape r then y else z) = z.
Proof. intros H. apply outside_family in H. destruct H as [P L]. now rewrite P, L. Qed.

Lemma SetAddressWindow_some_window (s : driver) (a b c d : Z) :
  enumerated (ili9488_rotation s) ->
  exists c0 c1 p0 p1,
    trace_of (ILI9488_SetAddressWindow a b c d) s
    = window_events (uint16_t c0) (uint16_t c1) (uint16_t p0) (uint16_t p1).
Proof.
  intros E. apply enumerated_family in E. destruct E as [P|L].
  - exists a, c, b, d. now apply SetAddressWindow_portrait.
  - exists b, d, a, c. now apply SetAddressWindow_landscape.
Qed.

Lemma SetAddressWindow_silent (s : driver) (a b c d : Z) :
  ~ enumerated (ili9488_rotation s) ->
  trace_of (ILI9488_SetAddressWindow a b c d) s = [].
Proof.
  intros N. unfold trace_of. rewrite SetAddressWindow_branches, dispatch.
  now rewrite neither_family.
Qed.

End Silence.


(** X12: in every state and for all arguments, the window routine and
    the seven drawing routines emit nothing but the commands 0x2A, 0x2B
    and 0x2C and data words below 2^18: no reset edge, no delay, no
    other command. *)
Theorem drawing_emits_stream_events_only (s : driver) (a b c d color : Z) :
  Forall stream_event (trace_of (ILI9488_SetAddressWindow a b c d) s)
  /\ Forall stream_event (trace_of (ILI9488_DrawPixel a b color) s)
  /\ Forall stream_event (trace_of (ILI9488_DrawLine a b c d color) s)
  /\ Forall stream_event (trace_of (ILI9488_DrawRect a b c d color) s)
  /\ Forall stream_event (trace_of (ILI9488_FillRect a b c d color) s)
  /\ Forall stream_event (trace_of (ILI9488_DrawCircle a b c color) s)
  /\ Forall stream_event (trace_of (ILI9488_FillCircle a b c color) s)
  /\ Forall stream_event (trace_of (ILI9488_FillBackground color) s).
Proof.
  split; [|split; [|split; [|split; [|split; [|split; [|split]]]]]].
  - destruct (enumerated_or_not (ili9488_rotation s)) as [E|N].
    + destruct (SetAddressWindow_some_window s a b c d E)
        as (c0 & c1 & p0 & p1 & ->). apply Forall_stream_window.
    + rewrite SetAddressWindow_silent by exact N. apply Forall_nil.
  - destruct (enumerated_or_not (ili9488_rotation s)) as [E|N]; unfold trace_of.
    + rewrite DrawPixel_bus by exact E. cbn [snd]. apply Forall_app. split.
      * apply Forall_stream_window.
      * apply Forall_cons; [apply mask18_range | apply Forall_nil].
    + rewrite DrawPixel_run, neither_family by exact N. apply Forall_nil.
  - destruct (enumerated_or_not (ili9488_rotation s)) as [E|N]; unfold trace_of.
    + rewrite DrawLine_bus by exact E. cbn [snd]. apply Forall_app.
      split; [apply Forall_stream_window | apply Forall_stream_repeat].
    + rewrite DrawLine_run, neither_family by exact N. apply Forall_nil.
  - destruct (enumerated_or_not (ili9488_rotation s)) as [E|N]; unfold trace_of.
    + rewrite DrawRect_bus by exact E. cbn [snd]. apply Forall_app.
      split; [apply Forall_stream_window | apply Forall_stream_repeat].
    + rewrite DrawRect_run, neither_family by exact N. apply Forall_nil.
  - destruct (enumerated_or_not (ili9488_rotation s)) as [E|N]; unfold trace_of.
    + rewrite FillRect_bus by exact E. cbn [snd]. apply Forall_app.
      split; [apply Forall_stream_window | apply Forall_stream_repeat].
    + rewrite FillRect_run, neither_family by exact N. apply Forall_nil.
  - destruct (enumerated_or_not (ili9488_rotation s)) as [E|N]; unfold trace_of.
    + rewrite DrawCircle_bus by exact E. cbn [snd]. apply Forall_app.
      split; [apply Forall_stream_window | apply Forall_stream_repeat].
    + rewrite DrawCircle_run, neither_family by exact N. apply Forall_nil.
  - destruct (enumerated_or_not (ili9488_rotation s)) as [E|N]; unfold trace_of.
    + rewrite FillCircle_bus by exact E. cbn [snd]. apply Forall_app.
      split; [apply Forall_stream_window | apply Forall_stream_repeat].
    + rewrite FillCircle_run, neither_family by exact N. apply Forall_nil.
  - destruct (enumerated_or_not (ili9488_rotation s)) as [E|N]; unfold trace_of.
    + rewrite FillBackground_bus by exact E. cbn [snd]. apply Forall_app.
      split; [|apply Forall_stream_repeat].
      change (window_events 0 319 0 479)
        with (window_events (uint16_t 0) (uint16_t 319) (uint16_t 0) (uint16_t 479)).
      apply Forall_stream_window.
    + rewrite FillBackground_run, neither_family by exact N. apply Forall_nil.
Qed.

(** X13: a rectangle of width 0 or height 0 is not rejected: in each of
    the four rotations FillRect still sends the eleven window
    transactions and then no data word at all; the far column is
    x+w-1 taken modulo 2^16, so that width 0 at x = 0 names column
    65535. *)
Theorem FillRect_empty_rectangle (s : driver) (x y w h color : Z) :
  enumerated (ili9488_rotation s) ->
  in_uint16 x -> in_uint16 y -> in_uint16 w -> in_uint16 h ->
  w = 0 \/ h = 0 ->
  ILI9488_FillRect x y w h color s
  = (tt, s, window_events x ((x + w - 1) mod 2 ^ 16) y ((y + h - 1) mod 2 ^ 16))
  /\ (w = 0 -> x = 0 -> (x + w - 1) mod 2 ^ 16 = 65535).
Proof.
  intros E Hx Hy Hw Hh Z0. split.
  - rewrite FillRect_bus by exact E.
    rewrite (uint16_small x), (uint16_small y), (uint16_small w), (uint16_small h)
      by assumption.
    replace (w * h) with 0 by (destruct Z0; subst; lia).
    cbn [Z.to_nat repeat]. now rewrite app_nil_r.
  - intros -> ->. reflexivity.
Qed.

(** The X13 statement for FillRect(0,7,0,3,white) in the load-time
    state. *)
Lemma FillRect_empty_rectangle_witness :
  enumerated (ili9488_rotation power_on)
  /\ (0 = 0 \/ 3 = 0)
  /\ ILI9488_FillRect 0 7 0 3 ILI9488_WHITE power_on
     = (tt, power_on,
        window_events 0 ((0 + 0 - 1) mod 2 ^ 16) 7 ((7 + 3 - 1) mod 2 ^ 16)).
Proof.
  assert (E : enumerated (ili9488_rotation power_on)) by (left; reflexivity).
  assert (Z0 : 0 = 0 \/ 3 = 0) by (left; reflexivity).
  split; [exact E|]. split; [exact Z0|].
  refine (proj1 (FillRect_empty_rectangle power_on 0 7 0 3 ILI9488_WHITE
                   E _ _ _ _ Z0));
    unfold in_uint16; lia.
Defined.

(** X14: the number of bus transactions of a drawing call, in each of
    the four rotations: 12 for DrawPixel, 11 + w*h for FillRect and
    DrawRect with 16-bit w and h, and 153611 for DrawLine, DrawCircle,
    FillCircle and FillBackground whatever their arguments. *)
Theorem drawing_transaction_counts (s : driver) (a b c d color : Z) :
  enumerated (ili9488_rotation s) ->
  in_uint16 c -> in_uint16 d ->
  length (trace_of (ILI9488_DrawPixel a b color) s) = 12%nat
  /\ Z.of_nat (length (trace_of (ILI9488_FillRect a b c d color) s)) = 11 + c * d
  /\ Z.of_nat (length (trace_of (ILI9488_DrawRect a b c d color) s)) = 11 + c * d
  /\ Z.of_nat (length (trace_of (ILI9488_DrawLine a b c d color) s)) = 153611
  /\ Z.of_nat (length (trace_of (ILI9488_DrawCircle a b c color) s)) = 153611
  /\ Z.of_nat (length (trace_of (ILI9488_FillCircle a b c color) s)) = 153611
  /\ Z.of_nat (length (trace_of (ILI9488_FillBackground color) s)) = 153611.
Proof.
  intros E Hc Hd.
  assert (L : forall c0 c1 p0 p1 (e : event) (n : Z),
             0 <= n ->
             Z.of_nat (length (window_events c0 c1 p0 p1 ++ repeat e (Z.to_nat n)))
             = 11 + n).
  { intros c0 c1 p0 p1 e n Hn.
    rewrite length_app, repeat_length, Nat2Z.inj_add, Z2Nat.id by exact Hn.
    reflexivity. }
  unfold trace_of.
  split; [|split; [|split; [|split; [|split; [|split]]]]].
  - rewrite DrawPixel_bus by exact E. reflexivity.
  - rewrite FillRect_bus by exact E. cbn [snd].
    rewrite (uint16_small c), (uint16_small d) by assumption.
    apply L. unfold in_uint16 in *. nia.
  - rewrite DrawRect_bus by exact E. cbn [snd].
    rewrite (uint16_small c), (uint16_small d) by assumption.
    apply L. unfold in_uint16 in *. nia.
  - rewrite DrawLine_bus by exact E. cbn [snd]. now rewrite L.
  - rewrite DrawCircle_bus by exact E. cbn [snd]. now rewrite L.
  - rewrite FillCircle_bus by exact E. cbn [snd]. now rewrite L.
  - rewrite FillBackground_bus by exact E. cbn [snd]. now rewrite L.
Qed.

(** The X14 statement for a 2 by 5 rectangle in the load-time state. *)
Lemma drawing_transaction_counts_witness :
  enumerated (ili9488_rotation power_on)
  /\ Z.of_nat (length (trace_of (ILI9488_FillRect 3 4 2 5 ILI9488_WHITE) power_on))
     = 11 + 2 * 5.
Proof.
  assert (E : enumerated (ili9488_rotation power_on)) by (left; reflexivity).
  split; [exact E|].
  refine (proj1 (proj2 (drawing_transaction_counts
                          power_on 3 4 2 5 ILI9488_WHITE E _ _)));
    unfold in_uint16; lia.
Defined.

(** X15: only the low 18 bits of a colour argument matter: two colours
    that agree on them make each drawing routine run identically, in
    every state and for all other arguments; so the header's red,
    0x3F0000, is sent as 0x30000. *)
Theorem colour_low_bits_only (s : driver) (a b c d color color' : Z) :
  Z.land color 0x3FFFF = Z.land color' 0x3FFFF ->
  ILI9488_DrawPixel a b color s = ILI9488_DrawPixel a b color' s
  /\ ILI9488_DrawLine a b c d color s = ILI9488_DrawLine a b c d color' s
  /\ ILI9488_DrawRect a b c d color s = ILI9488_DrawRect a b c d color' s
  /\ ILI9488_FillRect a b c d color s = ILI9488_FillRect a b c d color' s
  /\ ILI9488_DrawCircle a b c color s = ILI9488_DrawCircle a b c color' s
  /\ ILI9488_FillCircle a b c color s = ILI9488_FillCircle a b c color' s
  /\ ILI9488_FillBackground color s = ILI9488_FillBackground color' s.
Proof.
  intros H.
  split; [|split; [|split; [|split; [|split; [|split]]]]].
  - rewrite (DrawPixel_run s a b color), (DrawPixel_run s a b color').
    now rewrite H.
  - rewrite (DrawLine_run s a b c d color), (DrawLine_run s a b c d color').
    now rewrite H.
  - rewrite (DrawRect_run s a b c d color), (DrawRect_run s a b c d color').
    now rewrite H.
  - rewrite (FillRect_run s a b c d color), (FillRect_run s a b c d color').
    now rewrite H.
  - rewrite (DrawCircle_run s a b c color), (DrawCircle_run s a b c color').
    now rewrite H.
  - rewrite (FillCircle_run s a b c color), (FillCircle_run s a b c color').
    now rewrite H.
  - rewrite (FillBackground_run s color), (FillBackground_run s color').
    now rewrite H.
Qed.

(** The X15 statement for the header's red against 0x30000. *)
Lemma colour_low_bits_only_witness :
  Z.land 0x3F0000 0x3FFFF = Z.land 0x30000 0x3FFFF
  /\ ILI9488_DrawPixel 10 20 0x3F0000 power_on
     = ILI9488_DrawPixel 10 20 0x30000 power_on.
Proof.
  assert (H : Z.land 0x3F0000 0x3FFFF = Z.land 0x30000 0x3FFFF) by reflexivity.
  split; [exact H|].
  exact (proj1 (colour_low_bits_only power_on 10 20 0 0 0x3F0000 0x30000 H)).
Defined.

(** X16: a rectangle of 16-bit x, y, w, h with w >= 1, h >= 1,
    x + w <= 65536 and y + h <= 65536 is filled exactly: in each of the four rotations the
    window read back from what FillRect sends is columns x..x+w-1 and
    pages y..y+h-1, it covers w*h pixels, and exactly w*h data words
    follow it. *)
Theorem FillRect_fills_its_window (s : driver) (x y w h color : Z) :
  enumerated (ili9488_rotation s) ->
  in_uint16 x -> in_uint16 y -> in_uint16 w -> in_uint16 h ->
  1 <= w -> 1 <= h -> x + w <= 2 ^ 16 -> y + h <= 2 ^ 16 ->
  trace_of (ILI9488_FillRect x y w h color) s
  = window_events x (x + w - 1) y (y + h - 1)
    ++ repeat (DataWord (Z.land color 0x3FFFF)) (Z.to_nat (w * h))
  /\ window_of (trace_of (ILI9488_FillRect x y w h color) s)
     = Some (x, x + w - 1, y, y + h - 1)
  /\ window_area (x, x + w - 1, y, y + h - 1) = w * h.
Proof.
  intros E Hx Hy Hw Hh Hw1 Hh1 Hxw Hyh. unfold in_uint16 in *.
  assert (T : trace_of (ILI9488_FillRect x y w h color) s
              = window_events x (x + w - 1) y (y + h - 1)
                ++ repeat (DataWord (Z.land color 0x3FFFF)) (Z.to_nat (w * h))).
  { unfold trace_of. rewrite FillRect_bus by exact E. cbn [snd].
    rewrite (uint16_small x), (uint16_small y), (uint16_small w), (uint16_small h)
      by (unfold in_uint16; lia).
    now rewrite !uint16_small by (unfold in_uint16; lia). }
  split; [exact T|]. split.
  - rewrite T. apply window_of_events.
  - unfold window_area. lia.
Qed.

(** The X16 statement for FillRect(300,5,20,2,white) in landscape. *)
Lemma FillRect_fills_its_window_witness :
  enumerated (ili9488_rotation (mkDriver ILI9488_ROTATION_LANDSCAPE))
  /\ window_of (trace_of (ILI9488_FillRect 300 5 20 2 ILI9488_WHITE)
                         (mkDriver ILI9488_ROTATION_LANDSCAPE))
     = Some (300, 300 + 20 - 1, 5, 5 + 2 - 1).
Proof.
  assert (E : enumerated (ili9488_rotation (mkDriver ILI9488_ROTATION_LANDSCAPE)))
    by (right; left; reflexivity).
  split; [exact E|].
  refine (proj1 (proj2 (FillRect_fills_its_window
                          (mkDriver ILI9488_ROTATION_LANDSCAPE)
                          300 5 20 2 ILI9488_WHITE E _ _ _ _ _ _ _ _)));
    unfold in_uint16; lia.
Defined.
